(** * SigmaMCP: structural compression of Figma node trees

    A shallow embedding of [src/figma-parser.ts] (the classifier, the
    recursive compressor [parse], token extraction and the assembler
    [getSwiftTree]) and of the [get_swift_tree] tool handler of the MCP
    server, followed by the properties of the specification.

    Modelling conventions.
    - A JavaScript [number] is the rational value of a finite double
      ([Q]); comparisons, truthiness and [Math.round], which is
      [floor (x + 1/2)], are exact on it.  [NaN] and the infinities are
      not modelled: JSON has none, and a product or a quotient is taken
      to stay within the range of doubles.
    - A JavaScript [string] is the byte string of its UTF-8 encoding.
    - [toLowerCase], [trim] and the product and the quotient of doubles
      belong to the runtime.  The first embedding fixes them: [toLowerCase]
      and [trim] act on the ASCII range (letters A-Z, white space 9-13 and
      32) and the product and the quotient are exact, so that it is the
      program on ASCII names and characters and on numbers whose products
      and quotients are doubles.  The embedding of [Generic] takes the
      four operations as parameters, and what is proved over it holds of
      the runtime as it is; [Ieee] is the arithmetic of doubles.
    - An optional field is an [option]; [undefined] is [None].
    - A thrown exception is the [Thrown] outcome of the [Async] monad, and
      [console.error] appends to the log carried by that monad. *)

From Stdlib Require Import String Ascii List ZArith QArith Qround Qabs Bool Lia
  Lqa.
From Stdlib Require Import DecimalString HexadecimalString.
Import ListNotations.
Open Scope string_scope.

Set Implicit Arguments.

(** ** JavaScript primitives *)

Module Js.

Definition lowerChar (c : ascii) : ascii :=
  let n := nat_of_ascii c in
  if ((65 <=? n) && (n <=? 90))%nat then ascii_of_nat (n + 32) else c.

Fixpoint toLowerCase (s : string) : string :=
  match s with
  | EmptyString => EmptyString
  | String c s' => String (lowerChar c) (toLowerCase s')
  end.

Definition isWhiteSpace (c : ascii) : bool :=
  let n := nat_of_ascii c in
  (((9 <=? n) && (n <=? 13)) || (n =? 32))%nat.

Fixpoint trimStart (s : string) : string :=
  match s with
  | EmptyString => EmptyString
  | String c s' => if isWhiteSpace c then trimStart s' else s
  end.

Fixpoint trimEnd (s : string) : string :=
  match s with
  | EmptyString => EmptyString
  | String c s' =>
      let t := trimEnd s' in
      if isWhiteSpace c && (t =? "") then EmptyString else String c t
  end.

Definition trim (s : string) : string := trimEnd (trimStart s).

Definition startsWith (s p : string) : bool := String.prefix p s.

(** Truthiness of a string, of a number and of optional values. *)
Definition truthyStr (s : string) : bool := negb (s =? "").
Definition truthyNum (x : Q) : bool := negb (Qeq_bool x 0).

Definition truthyOptStr (o : option string) : bool :=
  match o with Some s => truthyStr s | None => false end.
Definition truthyOptNum (o : option Q) : bool :=
  match o with Some x => truthyNum x | None => false end.

(** [x < y] and [x > y] on numbers. *)
Definition ltb (x y : Q) : bool := negb (Qle_bool y x).
Definition gtb (x y : Q) : bool := ltb y x.

(** [Math.round]: the nearest integer, halves going up. *)
Definition round (x : Q) : Z := Qfloor (x + (1 # 2)).

(** [n.toString(16)] for an integer [n]. *)
Definition toString16 (n : Z) : string :=
  let digits := NilZero.string_of_uint (N.to_hex_uint (Z.to_N (Z.abs n))) in
  if (n <? 0)%Z then "-" ++ digits else digits.

(** [s.padStart(2, "0")]. *)
Definition padStart2 (s : string) : string :=
  match String.length s with
  | 0%nat => "00"
  | 1%nat => "0" ++ s
  | _ => s
  end.

(** [String(n)] for an integer [n]. *)
Definition toString10 (n : Z) : string :=
  DecimalString.NilZero.string_of_int (Z.to_int n).

(** The property names every plain object inherits from
    [Object.prototype]; [obj[k]] is truthy at each of them even when
    [obj] has no own property [k]. *)
Definition objectPrototypeKeys : list string :=
  [ "constructor"; "hasOwnProperty"; "isPrototypeOf"; "propertyIsEnumerable";
    "toLocaleString"; "toString"; "valueOf"; "__defineGetter__";
    "__defineSetter__"; "__lookupGetter__"; "__lookupSetter__"; "__proto__" ].

Definition inherited (k : string) : bool :=
  existsb (String.eqb k) objectPrototypeKeys.

Fixpoint ownProperty {A} (o : list (string * A)) (k : string) : option A :=
  match o with
  | [] => None
  | (k', v) :: o' => if k' =? k then Some v else ownProperty o' k
  end.

(** A value of type [unknown], as [JSON.parse] produces it. *)
Local Unset Elimination Schemes.
Inductive Value : Type :=
| VNull
| VBool (b : bool)
| VNum (x : Q)
| VStr (s : string)
| VArr (l : list Value)
| VObj (o : list (string * Value)).
Local Set Elimination Schemes.

(** [for (x of xs) { const y = f(x); if (y) out.push(y) }]. *)
Section Collect.
Variables A B : Type.
Variable f : A -> option B.
Fixpoint collect (l : list A) : list B :=
  match l with
  | [] => []
  | x :: l' =>
      match f x with
      | Some y => y :: collect l'
      | None => collect l'
      end
  end.
End Collect.

End Js.

(** ** Input: the Figma node (interface [FigmaNode]) *)

Module Figma.

Record Color : Type := mkColor { r : Q; g : Q; b : Q; a : Q }.

Record Paint : Type := mkPaint {
  ptype : string;               (* the fill's [type] *)
  color : option Color;
  popacity : option Q           (* the fill's [opacity] *)
}.

Record BBox : Type := mkBBox { x : Q; y : Q; width : Q; height : Q }.

Local Unset Elimination Schemes.
Inductive FigmaNode : Type := mkNode {
  id : string;
  name : string;
  type : string;
  children : option (list FigmaNode);
  characters : option string;
  absoluteBoundingBox : option BBox;
  fills : option (list Paint);
  cornerRadius : option Q;
  layoutMode : option string;
  itemSpacing : option Q;
  paddingLeft : option Q;
  paddingRight : option Q;
  paddingTop : option Q;
  paddingBottom : option Q;
  opacity : option Q;
  visible : option bool
}.
Local Set Elimination Schemes.

(** The children as an array, [[]] when the field is absent. *)
Definition childList (n : FigmaNode) : list FigmaNode :=
  match children n with Some l => l | None => [] end.

(** Induction over a node and, through [Forall], over its children. *)
Section Induction.
Variable P : FigmaNode -> Prop.
Hypothesis step : forall n, Forall P (childList n) -> P n.

Fixpoint FigmaNode_ind (n : FigmaNode) : P n :=
  step n
    (match n as n0 return Forall P (childList n0) with
     | mkNode _ _ _ ch _ _ _ _ _ _ _ _ _ _ _ _ =>
         match ch as c
               return Forall P (match c with Some l => l | None => [] end)
         with
         | None => Forall_nil P
         | Some l0 =>
             (fix all (k : list FigmaNode) : Forall P k :=
                match k with
                | [] => Forall_nil P
                | c :: k' => Forall_cons c (FigmaNode_ind c) (all k')
                end) l0
         end
     end).
End Induction.

End Figma.

(** ** Output: the slim node and the envelope *)

Module Slim.

Record Padding : Type := mkPadding {
  top : option Q; right : option Q; bottom : option Q; left : option Q
}.

(** The [icon] field holds what [SF_SYMBOLS[trimmed]] evaluated to: a symbol
    name, or a member inherited from [Object.prototype]. *)
Inductive IconValue : Type :=
| SymbolName (s : string)
| PrototypeMember (k : string).

Local Unset Elimination Schemes.
Inductive SlimNode : Type := mkSlim {
  name : string;
  type : string;
  content : option string;
  icon : option IconValue;
  fill : option string;
  opacity : option Q;
  cornerRadius : option Q;
  width : option Z;
  height : option Z;
  spacing : option Q;
  padding : option Padding;
  children : option (list SlimNode)
}.
Local Set Elimination Schemes.

(** [{ name, type }] with every optional field absent. *)
Definition bare (nm ty : string) : SlimNode :=
  mkSlim nm ty None None None None None None None None None None.

(** [{ ...s, name: nm }]. *)
Definition withName (nm : string) (s : SlimNode) : SlimNode :=
  mkSlim nm (type s) (content s) (icon s) (fill s) (opacity s)
         (cornerRadius s) (width s) (height s) (spacing s) (padding s)
         (children s).

Definition childList (s : SlimNode) : list SlimNode :=
  match children s with Some l => l | None => [] end.

(** [everywhere P s]: [P] holds of [s] and of every node below it. *)
Local Unset Elimination Schemes.
Inductive everywhere (P : SlimNode -> Prop) : SlimNode -> Prop :=
| everywhere_node s :
    P s ->
    (forall l, children s = Some l -> Forall (everywhere P) l) ->
    everywhere P s.
Local Set Elimination Schemes.

Record SlimTree : Type := mkTree {
  screen : string;
  treeWidth : Z;                (* the envelope's [width] *)
  treeHeight : Z;               (* the envelope's [height] *)
  components : list SlimNode;
  tokens : list (string * string)
}.

End Slim.

Import Figma.

(** ** The SF Symbol table *)

Definition SF_SYMBOLS : list (string * string) :=
  [ ("􀆉", "chevron.left"); ("􀅍", "questionmark"); ("􀈑", "trash");
    ("􀆄", "xmark"); ("􀆅", "checkmark"); ("􀆊", "chevron.right");
    ("􀜇", "location"); ("􀛿", "eye"); ("􀏭", "photo.on.rectangle");
    ("􀏰", "photo.on.rectangle"); ("􀉣", "tag"); ("􂞷", "trophy");
    ("􁃐", "photo.badge.plus"); ("􀆪", "globe"); ("􀎠", "lock");
    ("􀅴", "info.circle"); ("􀊫", "heart"); ("􀊬", "heart.fill");
    ("􀈂", "square.and.arrow.up"); ("􀙧", "person.2"); ("􀉩", "bookmark");
    ("􀍟", "ellipsis"); ("􀎞", "gear"); ("􀣘", "camera"); ("􀏟", "photo");
    ("􀅼", "plus"); ("􀅽", "minus"); ("􀊃", "magnifyingglass");
    ("􀋂", "bell"); ("􀋃", "bell.fill"); ("􀌜", "house"); ("􀌝", "house.fill") ].

(** [SF_SYMBOLS[k]] when it is truthy.  Every own value is a non-empty
    string; the inherited members are functions or objects. *)
Definition sfSymbol (k : string) : option Slim.IconValue :=
  match Js.ownProperty SF_SYMBOLS k with
  | Some v => if Js.truthyStr v then Some (Slim.SymbolName v) else None
  | None => if Js.inherited k then Some (Slim.PrototypeMember k) else None
  end.

(** ** Rule 1: decorative and system nodes *)

(** [node.children?.length] as a truth value. *)
Definition hasChildren (node : FigmaNode) : bool :=
  match children node with
  | Some (_ :: _) => true
  | _ => false
  end.

Definition isDecorative (node : FigmaNode) : bool :=
  if match visible node with Some false => true | _ => false end then true
  else
    let n := Js.trim (Js.toLowerCase (name node)) in
    if (n =? "status bar") || (n =? "time") || (n =? "levels") then true
    else if (n =? "cellular connection") || (n =? "wifi") then true
    else if (n =? "blur") || (n =? "mask") || (n =? "shadow") || (n =? "tint")
      then true
    else if (n =? "glass effect") || Js.startsWith n "liquid glass" then true
    else if (n =? "bg") || (n =? "background") then true
    else if Js.startsWith n "scroll edge effect" then true
    else if Js.startsWith n "scrollbar" then true
    else if (n =? "thumb") || (n =? "grabber") then true
    else if (n =? "cap") || (n =? "capacity") || (n =? "border") then true
    else if (n =? "overlay") && negb (hasChildren node) then true
    else false.

(** ** Rule 2: empty leaves *)

Definition isEmptyLeaf (node : FigmaNode) : bool :=
  if (type node =? "TEXT")
     && Js.truthyOptStr (option_map Js.trim (characters node)) then false
  else if hasChildren node then false
  else if (type node =? "VECTOR") || (type node =? "BOOLEAN_OPERATION")
    then false
  else if (type node =? "FRAME") || (type node =? "GROUP")
          || (type node =? "RECTANGLE") || (type node =? "INSTANCE")
          || (type node =? "COMPONENT") then true
  else false.

(** ** Rule 3: classification *)

Definition hasImageFill (node : FigmaNode) : bool :=
  match fills node with
  | None => false
  | Some fs => existsb (fun f => ptype f =? "IMAGE") fs
  end.

Fixpoint hasTextDescendant (node : FigmaNode) : bool :=
  if type node =? "TEXT" then true
  else
    match children node with
    | Some cs => existsb hasTextDescendant cs
    | None => false
    end.

Definition classifyType (node : FigmaNode) : string :=
  if type node =? "TEXT" then "Text"
  else if (type node =? "VECTOR") || (type node =? "BOOLEAN_OPERATION")
    then "Shape"
  else if hasImageFill node && negb (hasTextDescendant node) then "Image"
  else if match layoutMode node with
          | Some m => m =? "HORIZONTAL" | None => false end then "HStack"
  else if match layoutMode node with
          | Some m => m =? "VERTICAL" | None => false end then "VStack"
  else if (type node =? "INSTANCE") || (type node =? "COMPONENT")
    then "Component"
  else if (type node =? "FRAME") || (type node =? "GROUP") then "Frame"
  else "View".

(** ** Helpers *)

Definition hex2 (c : Q) : string :=
  Js.padStart2 (Js.toString16 (Js.round (c * 255))).

Definition rgbaToHex (c : Color) : string :=
  let hex := "#" ++ hex2 (r c) ++ hex2 (g c) ++ hex2 (b c) in
  if Js.ltb (a c) 1 then hex ++ hex2 (a c) else hex.

Definition getSolidFill (node : FigmaNode) : option string :=
  match fills node with
  | None => None
  | Some fs =>
      match find (fun f => (ptype f =? "SOLID")
                           && match color f with Some _ => true | None => false end)
                 fs with
      | Some f =>
          match color f with
          | Some c => Some (rgbaToHex c)
          | None => None
          end
      | None => None
      end
  end.

Definition hasMeaningfulPadding (node : FigmaNode) : bool :=
  Js.truthyOptNum (paddingTop node) || Js.truthyOptNum (paddingRight node)
  || Js.truthyOptNum (paddingBottom node) || Js.truthyOptNum (paddingLeft node).

(** [if (v) p.side = v]: a side is kept when it is truthy. *)
Definition keepTruthy (o : option Q) : option Q :=
  if Js.truthyOptNum o then o else None.

Definition getPadding (node : FigmaNode) : option Slim.Padding :=
  if negb (hasMeaningfulPadding node) then None
  else Some (Slim.mkPadding (keepTruthy (paddingTop node))
                            (keepTruthy (paddingRight node))
                            (keepTruthy (paddingBottom node))
                            (keepTruthy (paddingLeft node))).

(** ** The recursive compressor

    [parse] is one function in the source.  Its four construction paths
    are named here so that the properties can speak of them: the text leaf
    (lines 195-208), the image kept without children (lines 222-230), the
    flattening of a single-child wrapper (lines 242-261) and the default
    construction (lines 264-302). *)

Definition isBlack (fill : string) : bool :=
  (fill =? "#000000") || (fill =? "#000000ff").

Definition isBlackOrWhite (fill : string) : bool :=
  (fill =? "#000000") || (fill =? "#ffffff")
  || (fill =? "#000000ff") || (fill =? "#ffffffff").

(** Lines 196-207, entered with the truthy [node.characters]. *)
Definition textLeaf (node : FigmaNode) (chars : string)
  : option Slim.SlimNode :=
  let trimmed := Js.trim chars in
  if negb (Js.truthyStr trimmed) then None
  else
    match sfSymbol trimmed with
    | Some sym =>
        Some (Slim.mkSlim (name node) "Icon" None (Some sym)
                          None None None None None None None None)
    | None =>
        let fill := getSolidFill node in
        Some (Slim.mkSlim (name node) "Text" (Some trimmed) None
                (match fill with
                 | Some f =>
                     if Js.truthyStr f && negb (isBlack f) then Some f
                     else None
                 | None => None
                 end)
                None None None None None None None)
    end.

(** Lines 223-229: an image node whose children were all filtered. *)
Definition imageFallback (node : FigmaNode) : Slim.SlimNode :=
  let bbox := absoluteBoundingBox node in
  Slim.mkSlim (name node) "Image" None None None None
    (if Js.truthyOptNum (cornerRadius node) then cornerRadius node else None)
    (option_map (fun bb => Js.round (width bb)) bbox)
    (option_map (fun bb => Js.round (height bb)) bbox)
    None None None.

(** Lines 243-247: what makes a single-child wrapper worth keeping. *)
Definition isDefaultFill (node : FigmaNode) : bool :=
  match getSolidFill node with
  | None => true
  | Some fill => negb (Js.truthyStr fill) || isBlackOrWhite fill
  end.

Definition hasVisibleCorner (node : FigmaNode) : bool :=
  match cornerRadius node with
  | Some cr => Js.truthyNum cr && Js.gtb cr 0 && Js.ltb cr 100
  | None => false
  end.

Definition hasOpacity (node : FigmaNode) : bool :=
  match opacity node with
  | Some o => Js.ltb o 1
  | None => false
  end.

(** Lines 251-255. *)
Definition isGenericName (nodeName : string) : bool :=
  let currentName := Js.toLowerCase nodeName in
  Js.startsWith currentName "frame" || (currentName =? "container")
  || (currentName =? "contents") || (currentName =? "content")
  || Js.startsWith currentName "accessories" || Js.startsWith currentName "_"
  || (currentName =? "text") || (currentName =? "image").

(** Lines 264-302: the default construction. *)
Definition buildSlim (node : FigmaNode) (isRoot : bool)
           (children : list Slim.SlimNode) : Slim.SlimNode :=
  let type := classifyType node in
  let isStack := (type =? "HStack") || (type =? "VStack") in
  let bbox :=
    if (type =? "Image") || isRoot then absoluteBoundingBox node else None in
  Slim.mkSlim (name node) type None None
    (match getSolidFill node with
     | Some fill =>
         if Js.truthyStr fill && negb (isBlackOrWhite fill) then Some fill
         else None
     | None => None
     end)
    (match opacity node with
     | Some o =>
         if Js.ltb o 1 then Some (inject_Z (Js.round (o * 100)) / 100)
         else None
     | None => None
     end)
    (match cornerRadius node with
     | Some cr =>
         if Js.truthyNum cr && Js.gtb cr 0 && Js.ltb cr 999 then Some cr
         else None
     | None => None
     end)
    (option_map (fun bb => Js.round (width bb)) bbox)
    (option_map (fun bb => Js.round (height bb)) bbox)
    (if isStack then keepTruthy (itemSpacing node) else None)
    (if isStack then getPadding node else None)
    (match children with [] => None | _ :: _ => Some children end).

(** Lines 219-302: what [parse] does once the children are compressed. *)
Definition afterChildren (node : FigmaNode) (isRoot : bool)
           (children : list Slim.SlimNode) : option Slim.SlimNode :=
  if (length children =? 0)%nat && negb (type node =? "TEXT") then
    if hasImageFill node then Some (imageFallback node) else None
  else
    match children with
    | [child] =>
        if negb isRoot
           && negb (negb (isDefaultFill node) || hasVisibleCorner node
                    || hasOpacity node)
        then
          if isGenericName (name node) then Some child
          else Some (Slim.withName (name node) child)
        else Some (buildSlim node isRoot children)
    | _ => Some (buildSlim node isRoot children)
    end.

Fixpoint parse (node : FigmaNode) (depth : nat) (isRoot : bool)
         {struct node} : option Slim.SlimNode :=
  if (20 <? depth)%nat then None
  else if isDecorative node then None
  else if isEmptyLeaf node then None
  else if (type node =? "TEXT") && Js.truthyOptStr (characters node) then
    match characters node with
    | Some chars => textLeaf node chars
    | None => None
    end
  else
    afterChildren node isRoot
      (match children node with
       | Some cs => Js.collect (fun child => parse child (S depth) false) cs
       | None => []
       end).

(** ** Design token extraction *)

(** A fresh object literal ignores the assignment of a string to its
    [__proto__] key; every other string-valued entry is copied. *)
Definition extractTokens (styles : list (string * Js.Value))
  : list (string * string) :=
  Js.collect
    (fun entry : string * Js.Value =>
       match snd entry with
       | Js.VStr value =>
           if fst entry =? "__proto__" then None
           else Some (fst entry, value)
       | _ => None
       end)
    styles.

(** ** Asynchronous code: exceptions and the console *)

Module Async.

Inductive outcome (A : Type) : Type :=
| Returned (a : A)
| Thrown (message : string).
Arguments Thrown {A} message.

(** A computation reads the console written so far and leaves the console
    it has written, with the value it returned or the error it threw. *)
Definition t (A : Type) : Type := list string -> outcome A * list string.

Definition ret {A} (a : A) : t A := fun console => (Returned a, console).

Definition throw {A} (message : string) : t A :=
  fun console => (Thrown message, console).

Definition bind {A B} (m : t A) (k : A -> t B) : t B :=
  fun console =>
    match m console with
    | (Returned a, console') => k a console'
    | (Thrown message, console') => (Thrown message, console')
    end.

(** [await p] for a promise that has settled with [o]. *)
Definition await {A} (o : outcome A) : t A := fun console => (o, console).

Definition consoleError (line : string) : t unit :=
  fun console => (Returned tt, (console ++ [line])%list).

(** [try { m } catch (error) { handler(error.message) }]. *)
Definition tryCatch {A} (m : t A) (handler : string -> t A) : t A :=
  fun console =>
    match m console with
    | (Returned a, console') => (Returned a, console')
    | (Thrown message, console') => handler message console'
    end.

End Async.

Notation "x <- m ;; k" := (Async.bind m (fun x => k))
  (at level 61, m at next level, right associativity).

(** ** The Figma API client, the assembler and the tool handler *)

(** What the nodes endpoint holds for one node id. *)
Record NodeData : Type := mkNodeData {
  document : FigmaNode;
  styles : option (list (string * Js.Value))
}.

(** A parsed response body: of the shape [{ nodes: { ... } }] the client
    casts the nodes response to, or an object of string keys without a
    [nodes] member, as the variables endpoint returns. *)
Inductive Body : Type :=
| NodesBody (nodes : list (string * NodeData))
| ObjectBody (entries : list (string * Js.Value)).

Record Response : Type := mkResponse {
  ok : bool;
  status : Z;
  text : string;                       (* what [response.text()] resolves to *)
  json : Async.outcome Body            (* how [response.json()] settles *)
}.

Record ToolInput : Type := mkToolInput {
  fileKey : string;
  nodeId : string;
  depth : option Q
}.

Record ContentItem : Type := mkContent { ctype : string; ctext : string }.

Record ToolResult : Type := mkToolResult {
  content : list ContentItem;
  isError : option bool
}.

Section Server.

(** The network: how [fetch(url, { headers: { "X-Figma-Token": token } })]
    settles. *)
Variable fetch : string -> string -> Async.outcome Response.
Variable encodeURIComponent : string -> string.
(** [JSON.stringify(tree, null, 2)]. *)
Variable stringify : Slim.SlimTree -> string.
Variable FIGMA_TOKEN : string.

(** [data.nodes[nodeId]] is [undefined], an own entry, or a member
    inherited from [Object.prototype], whose [document] is [undefined]. *)
Definition fetchFigmaNode (fileKey nodeId token : string)
  : Async.t (option FigmaNode * list (string * Js.Value)) :=
  let url := "https://api.figma.com/v1/files/" ++ fileKey ++ "/nodes?ids="
             ++ encodeURIComponent nodeId in
  response <- Async.await (fetch url token) ;;
  if negb (ok response) then
    Async.throw ("Figma API error " ++ Js.toString10 (status response)
                 ++ ": " ++ text response)
  else
    data <- Async.await (json response) ;;
    match data with
    | NodesBody nodes =>
        match Js.ownProperty nodes nodeId with
        | Some nodeData =>
            Async.ret (Some (document nodeData),
                       match styles nodeData with
                       | Some s => s
                       | None => []
                       end)
        | None =>
            if Js.inherited nodeId then Async.ret (None, [])
            else Async.throw ("Node " ++ nodeId ++ " not found in file "
                              ++ fileKey)
        end
    | ObjectBody _ =>
        Async.throw ("Cannot read properties of undefined (reading '"
                     ++ nodeId ++ "')")
    end.

Definition fetchFigmaVariables (fileKey token : string)
  : Async.t Body :=
  let url := "https://api.figma.com/v1/files/" ++ fileKey
             ++ "/variables/local" in
  response <- Async.await (fetch url token) ;;
  if negb (ok response) then
    _ <- Async.consoleError ("Variables API error "
                             ++ Js.toString10 (status response)) ;;
    Async.ret (ObjectBody [])
  else
    Async.await (json response).

Definition getSwiftTree (fileKey nodeId token : string)
  : Async.t Slim.SlimTree :=
  fetched <- fetchFigmaNode fileKey nodeId token ;;
  let tokens := extractTokens (snd fetched) in
  match fst fetched with
  | None =>
      Async.throw
        "Cannot read properties of undefined (reading 'absoluteBoundingBox')"
  | Some node =>
      let bbox := absoluteBoundingBox node in
      let parsed := parse node 0 true in
      Async.ret
        (Slim.mkTree
           (name node)
           (match bbox with Some bb => Js.round (width bb) | None => 0%Z end)
           (match bbox with Some bb => Js.round (height bb) | None => 0%Z end)
           (match parsed with
            | Some p =>
                match Slim.children p with
                | Some cs => cs
                | None => [p]
                end
            | None => []
            end)
           tokens)
  end.

(** The handler registered for the [get_swift_tree] tool: it destructures
    [{ fileKey, nodeId }] from its validated input. *)
Definition get_swift_tree (input : ToolInput) : Async.t ToolResult :=
  Async.tryCatch
    (tree <- getSwiftTree (fileKey input) (nodeId input) FIGMA_TOKEN ;;
     Async.ret (mkToolResult [mkContent "text" (stringify tree)] None))
    (fun message =>
       Async.ret
         (mkToolResult
            [mkContent "text" ("Error fetching Figma node: " ++ message)]
            (Some true))).

End Server.

(** ** Induction over slim trees *)

Section SlimInduction.
Variable P : Slim.SlimNode -> Prop.
Hypothesis step : forall s, Forall P (Slim.childList s) -> P s.

Fixpoint SlimNode_ind (s : Slim.SlimNode) : P s :=
  step s
    (match s as s0 return Forall P (Slim.childList s0) with
     | Slim.mkSlim _ _ _ _ _ _ _ _ _ _ _ ch =>
         match ch as c
               return Forall P (match c with Some l => l | None => [] end)
         with
         | None => Forall_nil P
         | Some l0 =>
             (fix all (k : list Slim.SlimNode) : Forall P k :=
                match k with
                | [] => Forall_nil P
                | c :: k' => Forall_cons c (SlimNode_ind c) (all k')
                end) l0
         end
     end).
End SlimInduction.

(** ** Where an output node comes from *)

(** [descendantAt k m n]: [m] lies [k] levels below [n] ([m = n] at 0). *)
Inductive descendantAt : nat -> FigmaNode -> FigmaNode -> Prop :=
| descendant_self n : descendantAt 0 n n
| descendant_child k m c n :
    In c (Figma.childList n) -> descendantAt k m c ->
    descendantAt (S k) m n.

(** The three paths of [parse] that construct a node. *)
Inductive Path : Type := TextLeaf | ImageFallback | DefaultConstruction.

Definition constructs (p : Path) (raw : FigmaNode) (s : Slim.SlimNode)
  : Prop :=
  match p with
  | TextLeaf =>
      type raw = "TEXT"
      /\ exists chars, characters raw = Some chars /\ textLeaf raw chars = Some s
  | ImageFallback => hasImageFill raw = true /\ s = imageFallback raw
  | DefaultConstruction => exists isRoot cs, s = buildSlim raw isRoot cs
  end.

(** [emitted root depth s]: the output node [s] of [parse root depth _] was
    constructed along path [p] from the raw node [raw], [k] levels below
    [root] and within the depth cap, and carries the name of [namer], which
    is [raw] itself or a wrapper above it; neither is decorative. *)
Inductive emitted (root : FigmaNode) (depth : nat) (s : Slim.SlimNode)
  : Prop :=
| emitted_by (p : Path) (raw namer : FigmaNode) (k j : nat)
             (s0 : Slim.SlimNode) :
    descendantAt k raw root ->
    descendantAt j namer root ->
    (j <= k)%nat ->
    (depth + k <= 20)%nat ->
    isDecorative raw = false ->
    isDecorative namer = false ->
    constructs p raw s0 ->
    s = Slim.withName (name namer) s0 ->
    emitted root depth s.

(** [builtFrom p raw s]: [s] is what path [p] constructs from [raw], under
    the name of [raw] or under the name of a flattened wrapper. *)
Definition builtFrom (p : Path) (raw : FigmaNode) (s : Slim.SlimNode)
  : Prop :=
  exists s0 nm, constructs p raw s0 /\ s = Slim.withName nm s0.

(** ** The vocabulary of the specification *)

(** A number rounded to 2 decimals, as [Math.round(x * 100) / 100]. *)
Definition roundTo2 (x : Q) : Q := inject_Z (Js.round (x * 100)) / 100.

(** The denylist of names, as the specification words it: the names that
    make a node decorative whatever it contains, matched against the
    trimmed, lower-cased name. *)
Definition denylistedName (n : string) : bool :=
  existsb (String.eqb n)
    [ "status bar"; "time"; "levels"; "cellular connection"; "wifi";
      "blur"; "mask"; "shadow"; "tint"; "glass effect"; "bg"; "background";
      "thumb"; "grabber"; "cap"; "capacity"; "border" ]
  || existsb (Js.startsWith n)
       [ "liquid glass"; "scroll edge effect"; "scrollbar" ].

(** The whole denylist: a denylisted name, or a childless node named
    "overlay". *)
Definition matchesDenylist (nm : string) (childless : bool) : bool :=
  let n := Js.trim (Js.toLowerCase nm) in
  denylistedName n || ((n =? "overlay") && childless).

(** The generic placeholder names as the claim lists them, every plain
    entry read as an exact name. *)
Definition claimedGenericExact (lower : string) : Prop :=
  lower = "frame" \/ lower = "container" \/ lower = "contents"
  \/ lower = "content" \/ Js.startsWith lower "accessories" = true
  \/ Js.startsWith lower "_" = true \/ lower = "text" \/ lower = "image".

(** The same list with its plain entries "frame", "container", "contents"
    and "content" read as prefixes. *)
Definition claimedGenericPrefix (lower : string) : Prop :=
  Js.startsWith lower "frame" = true \/ Js.startsWith lower "container" = true
  \/ Js.startsWith lower "contents" = true
  \/ Js.startsWith lower "content" = true
  \/ Js.startsWith lower "accessories" = true
  \/ Js.startsWith lower "_" = true \/ lower = "text" \/ lower = "image".

(** The generic names of the code: "frame" is a prefix, "container",
    "contents" and "content" are exact. *)
Definition genericName (lower : string) : Prop :=
  Js.startsWith lower "frame" = true \/ lower = "container"
  \/ lower = "contents" \/ lower = "content"
  \/ Js.startsWith lower "accessories" = true
  \/ Js.startsWith lower "_" = true \/ lower = "text" \/ lower = "image".

(** The conditions of the precedence list, in the words of the
    specification. *)
Section Kinds.
Variable node : FigmaNode.

Definition textKind : Prop := type node = "TEXT".

Definition shapeKind : Prop :=
  type node = "VECTOR" \/ type node = "BOOLEAN_OPERATION".

Definition imageWithoutText : Prop :=
  (exists fs f, fills node = Some fs /\ In f fs /\ ptype f = "IMAGE")
  /\ (forall k d, descendantAt k d node -> type d <> "TEXT").

Definition horizontalAxis : Prop := layoutMode node = Some "HORIZONTAL".

Definition verticalAxis : Prop := layoutMode node = Some "VERTICAL".

Definition componentKind : Prop :=
  type node = "INSTANCE" \/ type node = "COMPONENT".

Definition frameKind : Prop := type node = "FRAME" \/ type node = "GROUP".

End Kinds.

(** ** The example trees and networks *)

(** A node with only its name and kind set. *)
Definition plain (nm ty : string) : FigmaNode :=
  mkNode "" nm ty None None None None None None None None None None None
         None None.

Definition withChildren (cs : list FigmaNode) (n : FigmaNode) : FigmaNode :=
  mkNode (id n) (name n) (type n) (Some cs) (characters n)
         (absoluteBoundingBox n) (fills n) (cornerRadius n) (layoutMode n)
         (itemSpacing n) (paddingLeft n) (paddingRight n) (paddingTop n)
         (paddingBottom n) (opacity n) (visible n).

Definition withCharacters (chars : string) (n : FigmaNode) : FigmaNode :=
  mkNode (id n) (name n) (type n) (children n) (Some chars)
         (absoluteBoundingBox n) (fills n) (cornerRadius n) (layoutMode n)
         (itemSpacing n) (paddingLeft n) (paddingRight n) (paddingTop n)
         (paddingBottom n) (opacity n) (visible n).

Definition withFills (fs : list Paint) (n : FigmaNode) : FigmaNode :=
  mkNode (id n) (name n) (type n) (children n) (characters n)
         (absoluteBoundingBox n) (Some fs) (cornerRadius n) (layoutMode n)
         (itemSpacing n) (paddingLeft n) (paddingRight n) (paddingTop n)
         (paddingBottom n) (opacity n) (visible n).

Definition withCornerRadius (cr : Q) (n : FigmaNode) : FigmaNode :=
  mkNode (id n) (name n) (type n) (children n) (characters n)
         (absoluteBoundingBox n) (fills n) (Some cr) (layoutMode n)
         (itemSpacing n) (paddingLeft n) (paddingRight n) (paddingTop n)
         (paddingBottom n) (opacity n) (visible n).

Definition withOpacity (o : Q) (n : FigmaNode) : FigmaNode :=
  mkNode (id n) (name n) (type n) (children n) (characters n)
         (absoluteBoundingBox n) (fills n) (cornerRadius n) (layoutMode n)
         (itemSpacing n) (paddingLeft n) (paddingRight n) (paddingTop n)
         (paddingBottom n) (Some o) (visible n).

Definition withLayout (mode : string) (gap : Q) (n : FigmaNode) : FigmaNode :=
  mkNode (id n) (name n) (type n) (children n) (characters n)
         (absoluteBoundingBox n) (fills n) (cornerRadius n) (Some mode)
         (Some gap) (paddingLeft n) (paddingRight n) (paddingTop n)
         (paddingBottom n) (opacity n) (visible n).

Definition withVisible (v : bool) (n : FigmaNode) : FigmaNode :=
  mkNode (id n) (name n) (type n) (children n) (characters n)
         (absoluteBoundingBox n) (fills n) (cornerRadius n) (layoutMode n)
         (itemSpacing n) (paddingLeft n) (paddingRight n) (paddingTop n)
         (paddingBottom n) (opacity n) (Some v).

Definition textNode (nm chars : string) : FigmaNode :=
  withCharacters chars (plain nm "TEXT").

Definition solid (red green blue alpha : Q) : Paint :=
  mkPaint "SOLID" (Some (mkColor red green blue alpha)) None.

Definition imagePaint : Paint := mkPaint "IMAGE" None None.

(** The scenario: a vertical auto-layout frame holding the text "Hello" in
    black and the frame "Icon Wrapper" around one vector. *)
Definition scenarioText : FigmaNode :=
  withFills [solid 0 0 0 1] (textNode "Greeting" "Hello").

Definition scenarioVector : FigmaNode := plain "Vector" "VECTOR".

Definition scenarioWrapper : FigmaNode :=
  withChildren [scenarioVector] (plain "Icon Wrapper" "FRAME").

Definition scenarioRoot : FigmaNode :=
  withLayout "VERTICAL" 12
    (withChildren [scenarioText; scenarioWrapper] (plain "Screen" "FRAME")).

Definition fadedText : FigmaNode :=
  withOpacity (1 # 2) (textNode "Caption" "Hello").


Definition captionedCard : FigmaNode :=
  withOpacity (57 # 100)
    (withChildren [textNode "Title" "Hi"; fadedText] (plain "Card" "FRAME")).

Definition pillCard : FigmaNode :=
  withCornerRadius 150
    (withChildren [textNode "Title" "Hi"; textNode "Body" "There"]
                  (plain "Card" "FRAME")).

Definition roundPhoto : FigmaNode :=
  withCornerRadius 1000
    (withFills [imagePaint]
       (withChildren [plain "Placeholder" "FRAME"] (plain "Photo" "FRAME"))).

Definition overlayScreen : FigmaNode :=
  withChildren
    [ textNode "Title" "Hi";
      withChildren [textNode "Label" "Tap"] (plain "Overlay" "FRAME") ]
    (plain "Screen" "FRAME").

Definition numberedFrame : FigmaNode :=
  withChildren [textNode "Label" "Tap"] (plain "Frame 12" "FRAME").

Definition containerView : FigmaNode :=
  withChildren [textNode "Label" "Tap"] (plain "Container View" "FRAME").

Definition hiddenWrapper : FigmaNode :=
  withVisible false
    (withChildren [textNode "Label" "Tap"] (plain "Primary Action" "FRAME")).

Definition textWithChild : FigmaNode :=
  withChildren [textNode "Label" "Tap"] (textNode "Primary Action" "Go").

Definition primaryAction : FigmaNode :=
  withChildren [textNode "Label" "Tap"] (plain "Primary Action" "FRAME").

Definition labelSlim : Slim.SlimNode :=
  Slim.mkSlim "Label" "Text" (Some "Tap") None None None None None None None
              None None.

(** [nest k inner]: [inner] inside [k] frames, each with a sibling text so
    that no frame is flattened away. *)
Fixpoint nest (k : nat) (inner : FigmaNode) : FigmaNode :=
  match k with
  | O => inner
  | S k' =>
      withChildren [textNode "Caption" "Level"; nest k' inner]
                   (plain "Group" "FRAME")
  end.

(** [bury k inner]: [inner] alone inside [k] frames. *)
Fixpoint bury (k : nat) (inner : FigmaNode) : FigmaNode :=
  match k with
  | O => inner
  | S k' => withChildren [bury k' inner] (plain "Layer" "FRAME")
  end.

(** An image frame holding two image vectors and [deep], 25 levels down. *)
Definition gallery (deep : FigmaNode) : FigmaNode :=
  withFills [imagePaint]
    (withChildren
       [ withFills [imagePaint] (plain "First" "VECTOR");
         withFills [imagePaint] (plain "Second" "VECTOR");
         bury 24 deep ]
       (plain "Gallery" "FRAME")).

(** [mentions content s]: some node of [s] has the text [content]. *)
Fixpoint mentions (content : string) (s : Slim.SlimNode) : bool :=
  match s with
  | Slim.mkSlim _ _ c _ _ _ _ _ _ _ _ ch =>
      match c with Some c' => c' =? content | None => false end
      || match ch with
         | Some l => existsb (mentions content) l
         | None => false
         end
  end.

Definition emptyText : FigmaNode := withCharacters "" (plain "Label" "TEXT").

Definition hiddenEmptyText : FigmaNode := withVisible false emptyText.

Definition emptyClock : FigmaNode := plain "Time" "TEXT".

Definition photoRow : FigmaNode :=
  withLayout "HORIZONTAL" 8
    (withFills [imagePaint]
       (withChildren [plain "Badge" "VECTOR"] (plain "Photo Row" "FRAME"))).

Definition captionedPhoto : FigmaNode :=
  withLayout "HORIZONTAL" 8
    (withFills [imagePaint]
       (withChildren
          [withChildren [textNode "Caption" "Sunset"] (plain "Footer" "GROUP")]
          (plain "Photo Row" "FRAME"))).

(** A network on which every request is refused. *)
Definition forbidden (url token : string) : Async.outcome Response :=
  Async.Returned
    (mkResponse false 403 "Forbidden" (Async.Thrown "Unexpected token"))%Z.

(** A network that serves one document under the node id "1:1". *)
Definition serving (doc : FigmaNode) (url token : string)
  : Async.outcome Response :=
  Async.Returned
    (mkResponse true 200 ""
                (Async.Returned (NodesBody [("1:1", mkNodeData doc None)])))%Z.

(** A stand-in for the serializer: the names of the top-level components. *)
Definition componentNames (tree : Slim.SlimTree) : string :=
  String.concat "," (map Slim.name (Slim.components tree)).

(** ** The vocabulary of the further properties *)

(** The nine structural categories of a slim node. *)
Definition categories : list string :=
  [ "Text"; "Icon"; "Shape"; "Image"; "HStack"; "VStack"; "Component";
    "Frame"; "View" ].

(** A side of the padding, or the spacing, that the source tests for
    truthiness: absent or zero. *)
Definition blank (o : option Q) : Prop := forall v, o = Some v -> v == 0.

Definition withBox (w h : Q) (n : FigmaNode) : FigmaNode :=
  mkNode (id n) (name n) (type n) (children n) (characters n)
         (Some (mkBBox 0 0 w h)) (fills n) (cornerRadius n) (layoutMode n)
         (itemSpacing n) (paddingLeft n) (paddingRight n) (paddingTop n)
         (paddingBottom n) (opacity n) (visible n).

Definition withPadding (l r t b : option Q) (n : FigmaNode) : FigmaNode :=
  mkNode (id n) (name n) (type n) (children n) (characters n)
         (absoluteBoundingBox n) (fills n) (cornerRadius n) (layoutMode n)
         (itemSpacing n) l r t b (opacity n) (visible n).

(** A screen with a title and a photo, both measured. *)
Definition photoScreen : FigmaNode :=
  withBox 390 844
    (withChildren
       [ withBox 200 24 (textNode "Title" "Hi");
         withBox (801 # 2) 300
           (withFills [imagePaint] (plain "Photo" "VECTOR")) ]
       (plain "Screen" "FRAME")).

(** A padded row inside a column. *)
Definition paddedRow : FigmaNode :=
  withPadding (Some 16) (Some 0) None (Some 8)
    (withLayout "HORIZONTAL" 0
       (withChildren [textNode "Left" "A"; textNode "Right" "B"]
                     (plain "Row" "FRAME"))).

Definition paddedColumn : FigmaNode :=
  withLayout "VERTICAL" 12
    (withChildren [textNode "Title" "Hi"; paddedRow] (plain "Column" "FRAME")).


(** The number of nodes of a raw tree and of a slim tree. *)
Fixpoint rawSize (n : FigmaNode) : nat :=
  match n with
  | mkNode _ _ _ ch _ _ _ _ _ _ _ _ _ _ _ _ =>
      match ch with
      | None => 1
      | Some l => S (fold_right (fun c m => rawSize c + m)%nat 0%nat l)
      end
  end.

Fixpoint slimSize (s : Slim.SlimNode) : nat :=
  match s with
  | Slim.mkSlim _ _ _ _ _ _ _ _ _ _ _ ch =>
      match ch with
      | None => 1
      | Some l => S (fold_right (fun c m => slimSize c + m)%nat 0%nat l)
      end
  end.

(** The number of levels of a slim tree. *)
Fixpoint slimLevels (s : Slim.SlimNode) : nat :=
  match s with
  | Slim.mkSlim _ _ _ _ _ _ _ _ _ _ _ ch =>
      match ch with
      | None => 1
      | Some l => S (fold_right (fun c m => Nat.max (slimLevels c) m) 0%nat l)
      end
  end.

(** A card with a red fill, a white title and a chevron glyph. *)
Definition styledCard : FigmaNode :=
  withFills [mkPaint "IMAGE" None None; mkPaint "SOLID" None None;
             solid 1 0 0 1; solid 0 0 1 1]
    (withChildren
       [ withFills [solid 1 1 1 1] (textNode "Title" "  Hi ");
         textNode "Back" "􀆉";
         textNode "Label" "constructor" ]
       (plain "Card" "FRAME")).

(** A photo as Figma draws it: a rectangle with an image fill. *)
Definition photoRectangle : FigmaNode :=
  withBox 200 100 (withFills [imagePaint] (plain "Photo" "RECTANGLE")).

(** A lower-case hexadecimal digit, and a string made of them. *)
Definition isHexDigit (c : ascii) : bool :=
  let n := nat_of_ascii c in
  (((48 <=? n) && (n <=? 57)) || ((97 <=? n) && (n <=? 102)))%nat.

Fixpoint allHex (s : string) : bool :=
  match s with
  | EmptyString => true
  | String c s' => isHexDigit c && allHex s'
  end.

Definition twoHexDigits (s : string) : bool :=
  (String.length s =? 2)%nat && allHex s.

(** A channel within the gamut. *)
Definition inUnit (q : Q) : Prop := 0 <= q /\ q <= 1.

(** A paint that [getSolidFill] can use. *)
Definition usableSolid (p : Paint) : Prop :=
  ptype p = "SOLID" /\ color p <> None.

(** The address of the nodes endpoint, as [fetchFigmaNode] builds it. *)
Definition nodesUrl (encode : string -> string) (fileKey nodeId : string)
  : string :=
  "https://api.figma.com/v1/files/" ++ fileKey ++ "/nodes?ids="
  ++ encode nodeId.

(** The nodes endpoint answers the request for [nodeId] with success and
    holds the document [doc] with the styles [sty] under that id. *)
Definition serves (fetch : string -> string -> Async.outcome Response)
           (encode : string -> string) (fileKey nodeId token : string)
           (doc : FigmaNode) (sty : option (list (string * Js.Value)))
  : Prop :=
  exists response nodes,
    fetch (nodesUrl encode fileKey nodeId) token = Async.Returned response
    /\ ok response = true
    /\ json response = Async.Returned (NodesBody nodes)
    /\ Js.ownProperty nodes nodeId = Some (mkNodeData doc sty).

(** A text node that takes the text-leaf path of [parse]. *)
Definition textWithCharacters (node : FigmaNode) : Prop :=
  type node = "TEXT"
  /\ exists chars, characters node = Some chars /\ chars <> "".

(** A network that serves a document with styles of mixed types. *)
Definition servingStyled (doc : FigmaNode) (url token : string)
  : Async.outcome Response :=
  Async.Returned
    (mkResponse true 200 ""
       (Async.Returned
          (NodesBody
             [("1:1",
               mkNodeData doc
                 (Some [("Brand/Primary", Js.VStr "#be845d");
                        ("Spacing/M", Js.VNum 16);
                        ("__proto__", Js.VStr "x");
                        ("Labels/Secondary", Js.VStr "#3c3c43")]))])))%Z.

(** A network whose nodes endpoint holds no node. *)
Definition servingNothing (url token : string) : Async.outcome Response :=
  Async.Returned (mkResponse true 200 "" (Async.Returned (NodesBody [])))%Z.

(** A row with a hidden badge between two labels. *)
Definition rowWithHiddenBadge : FigmaNode :=
  withLayout "HORIZONTAL" 8
    (withChildren
       [ textNode "Left" "A";
         withVisible false
           (withChildren [plain "Dot" "VECTOR"] (plain "Badge" "FRAME"));
         textNode "Right" "B" ]
       (plain "Row" "FRAME")).

(** A rounded button around one label. *)
Definition roundedButton : FigmaNode :=
  withCornerRadius 12
    (withChildren [textNode "Label" "Tap"] (plain "Primary Action" "FRAME")).

(** ** The embedding over the runtime

    [String.prototype.toLowerCase], [String.prototype.trim] and the
    product and the quotient of two doubles belong to the JavaScript
    runtime, not to the source.  The functions of the source that call
    them are embedded here with these four operations as parameters, so
    that what is proved of them holds whatever the Unicode tables say and
    however the arithmetic rounds.  A number stays the rational value of a
    finite double: comparisons, truthiness and [Math.round] are exact on
    it.  The definitions of the first part are these ones at
    [Js.toLowerCase], [Js.trim] and the exact product and quotient. *)

Module Generic.

Section Runtime.
Variable toLowerCase : string -> string.
Variable trim : string -> string.
(** [x * y] and [x / y] as the runtime computes them on doubles, where
    the result is finite. *)
Variable times : Q -> Q -> Q.
Variable over : Q -> Q -> Q.

Definition isDecorative (node : FigmaNode) : bool :=
  if match visible node with Some false => true | _ => false end then true
  else
    let n := trim (toLowerCase (name node)) in
    if (n =? "status bar") || (n =? "time") || (n =? "levels") then true
    else if (n =? "cellular connection") || (n =? "wifi") then true
    else if (n =? "blur") || (n =? "mask") || (n =? "shadow") || (n =? "tint")
      then true
    else if (n =? "glass effect") || Js.startsWith n "liquid glass" then true
    else if (n =? "bg") || (n =? "background") then true
    else if Js.startsWith n "scroll edge effect" then true
    else if Js.startsWith n "scrollbar" then true
    else if (n =? "thumb") || (n =? "grabber") then true
    else if (n =? "cap") || (n =? "capacity") || (n =? "border") then true
    else if (n =? "overlay") && negb (hasChildren node) then true
    else false.

Definition isEmptyLeaf (node : FigmaNode) : bool :=
  if (type node =? "TEXT")
     && Js.truthyOptStr (option_map trim (characters node)) then false
  else if hasChildren node then false
  else if (type node =? "VECTOR") || (type node =? "BOOLEAN_OPERATION")
    then false
  else if (type node =? "FRAME") || (type node =? "GROUP")
          || (type node =? "RECTANGLE") || (type node =? "INSTANCE")
          || (type node =? "COMPONENT") then true
  else false.

Definition hex2 (c : Q) : string :=
  Js.padStart2 (Js.toString16 (Js.round (times c 255))).

Definition rgbaToHex (c : Color) : string :=
  let hex := "#" ++ hex2 (r c) ++ hex2 (g c) ++ hex2 (b c) in
  if Js.ltb (a c) 1 then hex ++ hex2 (a c) else hex.

Definition getSolidFill (node : FigmaNode) : option string :=
  match fills node with
  | None => None
  | Some fs =>
      match find (fun f => (ptype f =? "SOLID")
                           && match color f with Some _ => true | None => false end)
                 fs with
      | Some f =>
          match color f with
          | Some c => Some (rgbaToHex c)
          | None => None
          end
      | None => None
      end
  end.

(** Lines 196-207, entered with the truthy [node.characters]. *)
Definition textLeaf (node : FigmaNode) (chars : string)
  : option Slim.SlimNode :=
  let trimmed := trim chars in
  if negb (Js.truthyStr trimmed) then None
  else
    match sfSymbol trimmed with
    | Some sym =>
        Some (Slim.mkSlim (name node) "Icon" None (Some sym)
                          None None None None None None None None)
    | None =>
        let fill := getSolidFill node in
        Some (Slim.mkSlim (name node) "Text" (Some trimmed) None
                (match fill with
                 | Some f =>
                     if Js.truthyStr f && negb (isBlack f) then Some f
                     else None
                 | None => None
                 end)
                None None None None None None None)
    end.

(** Lines 243-245. *)
Definition isDefaultFill (node : FigmaNode) : bool :=
  match getSolidFill node with
  | None => true
  | Some fill => negb (Js.truthyStr fill) || isBlackOrWhite fill
  end.

(** Lines 251-255. *)
Definition isGenericName (nodeName : string) : bool :=
  let currentName := toLowerCase nodeName in
  Js.startsWith currentName "frame" || (currentName =? "container")
  || (currentName =? "contents") || (currentName =? "content")
  || Js.startsWith currentName "accessories" || Js.startsWith currentName "_"
  || (currentName =? "text") || (currentName =? "image").

(** Lines 264-302: the default construction. *)
Definition buildSlim (node : FigmaNode) (isRoot : bool)
           (children : list Slim.SlimNode) : Slim.SlimNode :=
  let type := classifyType node in
  let isStack := (type =? "HStack") || (type =? "VStack") in
  let bbox :=
    if (type =? "Image") || isRoot then absoluteBoundingBox node else None in
  Slim.mkSlim (name node) type None None
    (match getSolidFill node with
     | Some fill =>
         if Js.truthyStr fill && negb (isBlackOrWhite fill) then Some fill
         else None
     | None => None
     end)
    (match opacity node with
     | Some o =>
         if Js.ltb o 1
         then Some (over (inject_Z (Js.round (times o 100))) 100)
         else None
     | None => None
     end)
    (match cornerRadius node with
     | Some cr =>
         if Js.truthyNum cr && Js.gtb cr 0 && Js.ltb cr 999 then Some cr
         else None
     | None => None
     end)
    (option_map (fun bb => Js.round (width bb)) bbox)
    (option_map (fun bb => Js.round (height bb)) bbox)
    (if isStack then keepTruthy (itemSpacing node) else None)
    (if isStack then getPadding node else None)
    (match children with [] => None | _ :: _ => Some children end).

(** Lines 219-302: what [parse] does once the children are compressed. *)
Definition afterChildren (node : FigmaNode) (isRoot : bool)
           (children : list Slim.SlimNode) : option Slim.SlimNode :=
  if (length children =? 0)%nat && negb (type node =? "TEXT") then
    if hasImageFill node then Some (imageFallback node) else None
  else
    match children with
    | [child] =>
        if negb isRoot
           && negb (negb (isDefaultFill node) || hasVisibleCorner node
                    || hasOpacity node)
        then
          if isGenericName (name node) then Some child
          else Some (Slim.withName (name node) child)
        else Some (buildSlim node isRoot children)
    | _ => Some (buildSlim node isRoot children)
    end.

Fixpoint parse (node : FigmaNode) (depth : nat) (isRoot : bool)
         {struct node} : option Slim.SlimNode :=
  if (20 <? depth)%nat then None
  else if isDecorative node then None
  else if isEmptyLeaf node then None
  else if (type node =? "TEXT") && Js.truthyOptStr (characters node) then
    match characters node with
    | Some chars => textLeaf node chars
    | None => None
    end
  else
    afterChildren node isRoot
      (match children node with
       | Some cs => Js.collect (fun child => parse child (S depth) false) cs
       | None => []
       end).

Definition getSwiftTree
           (fetch : string -> string -> Async.outcome Response)
           (encodeURIComponent : string -> string)
           (fileKey nodeId token : string)
  : Async.t Slim.SlimTree :=
  fetched <- fetchFigmaNode fetch encodeURIComponent fileKey nodeId token ;;
  let tokens := extractTokens (snd fetched) in
  match fst fetched with
  | None =>
      Async.throw
        "Cannot read properties of undefined (reading 'absoluteBoundingBox')"
  | Some node =>
      let bbox := absoluteBoundingBox node in
      let parsed := parse node 0 true in
      Async.ret
        (Slim.mkTree
           (name node)
           (match bbox with Some bb => Js.round (width bb) | None => 0%Z end)
           (match bbox with Some bb => Js.round (height bb) | None => 0%Z end)
           (match parsed with
            | Some p =>
                match Slim.children p with
                | Some cs => cs
                | None => [p]
                end
            | None => []
            end)
           tokens)
  end.

(** *** Vocabulary *)

(** What a construction path of [parse] builds from a raw node. *)
Definition constructs (p : Path) (raw : FigmaNode) (s : Slim.SlimNode)
  : Prop :=
  match p with
  | TextLeaf =>
      type raw = "TEXT"
      /\ exists chars, characters raw = Some chars /\ textLeaf raw chars = Some s
  | ImageFallback => hasImageFill raw = true /\ s = imageFallback raw
  | DefaultConstruction => exists isRoot cs, s = buildSlim raw isRoot cs
  end.

(** [builtFrom p raw s]: [s] is what path [p] constructs from [raw], under
    the name of [raw] or under the name of a flattened wrapper. *)
Definition builtFrom (p : Path) (raw : FigmaNode) (s : Slim.SlimNode)
  : Prop :=
  exists s0 nm, constructs p raw s0 /\ s = Slim.withName nm s0.

(** The children of [node] that survive compression one level down. *)
Definition survivors (node : FigmaNode) (depth : nat) : list Slim.SlimNode :=
  Js.collect (fun child => parse child (S depth) false) (Figma.childList node).

(** The wrapper adds nothing visible (lines 243-247): no solid fill
    besides the defaults, no corner radius strictly between 0 and 100, no
    opacity below 1. *)
Record plainWrapper (node : FigmaNode) : Prop := {
  plain_fill :
    forall fill, getSolidFill node = Some fill ->
                 fill = "#000000" \/ fill = "#ffffff"
                 \/ fill = "#000000ff" \/ fill = "#ffffffff";
  plain_corner :
    forall cr, cornerRadius node = Some cr -> ~ (0 < cr /\ cr < 100);
  plain_opacity :
    forall o, opacity node = Some o -> ~ o < 1
}.

(** What makes a wrapper visually meaningful: a solid fill that is not a
    default, a corner radius strictly between 0 and 100, or an opacity
    below 1. *)
Definition styled (node : FigmaNode) : Prop :=
  (exists fill,
      getSolidFill node = Some fill
      /\ fill <> "#000000" /\ fill <> "#ffffff"
      /\ fill <> "#000000ff" /\ fill <> "#ffffffff")
  \/ (exists cr, cornerRadius node = Some cr /\ 0 < cr /\ cr < 100)
  \/ (exists o, opacity node = Some o /\ o < 1).

(** The claim about flattening at one non-root node, with [generic] the
    reading of its list of placeholder names. *)
Definition claimedFlattening (generic : string -> Prop)
           (node : FigmaNode) (depth : nat) : Prop :=
  forall child,
    survivors node depth = [child] ->
    plainWrapper node ->
    (generic (toLowerCase (name node)) ->
     parse node depth false = Some child)
    /\ (~ generic (toLowerCase (name node)) ->
        parse node depth false = Some (Slim.withName (name node) child)).

End Runtime.

End Generic.

(** ** Double arithmetic

    The product and the quotient of two doubles are the exact results
    rounded to the nearest double, ties going to the even significand.
    Results are taken to stay within the range of doubles. *)

Module Ieee.

(** The exponent of a positive rational: [2 ^ ilog2 x <= x < 2 ^ (ilog2 x + 1)]. *)
Definition ilog2 (x : Q) : Z :=
  let k := (Z.log2 (Qnum x) - Z.log2 (Zpos (Qden x)))%Z in
  if Qle_bool (2 ^ k) x then k else (k - 1)%Z.

Definition roundHalfEven (x : Q) : Z :=
  let f := Qfloor x in
  match Qcompare (x - inject_Z f) (1 # 2) with
  | Lt => f
  | Gt => (f + 1)%Z
  | Eq => if Z.even f then f else (f + 1)%Z
  end.

(** The double nearest to [x]: 53 significant bits, and steps of
    [2 ^ -1074] near zero. *)
Definition fl (x : Q) : Q :=
  if Qeq_bool x 0 then 0
  else
    let a := Qabs x in
    let e := Z.max (ilog2 a - 52) (-1074) in
    let y := Qred (inject_Z (roundHalfEven (a / 2 ^ e)) * 2 ^ e) in
    if Qle_bool 0 x then y else - y.

Definition times (x y : Q) : Q := fl (x * y).

Definition over (x y : Q) : Q := fl (x / y).

End Ieee.

(** The doubles written 0.6749999999999999 and 0.00196078431372549. *)
Definition justBelow0675 : Q := 6079859496950169 # 9007199254740992.

Definition halfOver255 : Q := 282578800148737 # 144115188075855872.


Definition nearBlackWrapper : FigmaNode :=
  withFills [solid halfOver255 halfOver255 halfOver255 1]
    (withChildren [textNode "Label" "Tap"] (plain "Primary Action" "FRAME")).


(** * Properties *)

(** ** Slim trees *)

Lemma everywhere_here P s : Slim.everywhere P s -> P s.
Proof. now destruct 1. Qed.

Lemma everywhere_children P s l :
  Slim.everywhere P s -> Slim.children s = Some l ->
  Forall (Slim.everywhere P) l.
Proof. destruct 1 as [s Hs Hl]; auto. Qed.

Lemma everywhere_leaf (P : Slim.SlimNode -> Prop) s :
  P s -> Slim.children s = None -> Slim.everywhere P s.
Proof.
  intros Hs Hc. constructor; [assumption|].
  intros l E. congruence.
Qed.

Lemma everywhere_impl (P Q : Slim.SlimNode -> Prop) :
  (forall s, P s -> Q s) ->
  forall s, Slim.everywhere P s -> Slim.everywhere Q s.
Proof.
  intros PQ s. induction s as [s IH] using SlimNode_ind.
  intros H. constructor; [apply PQ, (everywhere_here H)|].
  intros l E. pose proof (everywhere_children H E) as Hl.
  unfold Slim.childList in IH. rewrite E in IH.
  rewrite Forall_forall in *. auto.
Qed.

Lemma withName_children nm s :
  Slim.children (Slim.withName nm s) = Slim.children s.
Proof. reflexivity. Qed.

Lemma withName_same s : Slim.withName (Slim.name s) s = s.
Proof. now destruct s. Qed.

(** Renaming the top node leaves a property of the nodes below alone. *)
Lemma everywhere_withName (P : Slim.SlimNode -> Prop) nm s :
  P (Slim.withName nm s) -> Slim.everywhere P s ->
  Slim.everywhere P (Slim.withName nm s).
Proof.
  intros Hn H. constructor; [assumption|].
  intros l E. rewrite withName_children in E.
  exact (everywhere_children H E).
Qed.

(** ** Every output node is emitted from a raw node *)

Lemma parse_unfold node depth isRoot :
  parse node depth isRoot =
  if (20 <? depth)%nat then None
  else if isDecorative node then None
  else if isEmptyLeaf node then None
  else if (type node =? "TEXT") && Js.truthyOptStr (characters node) then
    match characters node with
    | Some chars => textLeaf node chars
    | None => None
    end
  else
    afterChildren node isRoot
      (Js.collect (fun child => parse child (S depth) false)
                  (Figma.childList node)).
Proof. destruct node as [? ? ? [cs|] ? ? ? ? ? ? ? ? ? ? ? ?]; reflexivity. Qed.

Lemma collect_In (A B : Type) (f : A -> option B) l y :
  In y (Js.collect f l) -> exists x, In x l /\ f x = Some y.
Proof.
  induction l as [|x l IH]; simpl; [tauto|].
  destruct (f x) as [y'|] eqn:E.
  - intros [<-|H]; [exists x; auto|].
    destruct (IH H) as (x' & ? & ?); eauto.
  - intros H. destruct (IH H) as (x' & ? & ?); eauto.
Qed.

Lemma textLeaf_children node chars s :
  textLeaf node chars = Some s -> Slim.children s = None.
Proof.
  unfold textLeaf. destruct (negb _); [discriminate|].
  destruct (sfSymbol _); intros [= <-]; reflexivity.
Qed.

Lemma textLeaf_name node chars s :
  textLeaf node chars = Some s -> Slim.name s = name node.
Proof.
  unfold textLeaf. destruct (negb _); [discriminate|].
  destruct (sfSymbol _); intros [= <-]; reflexivity.
Qed.

Lemma constructs_name p raw s : constructs p raw s -> Slim.name s = name raw.
Proof.
  destruct p; simpl.
  - intros (_ & chars & _ & H). eapply textLeaf_name; eauto.
  - now intros (_ & ->).
  - now intros (isRoot & cs & ->).
Qed.

Lemma emitted_lift root depth c s :
  In c (Figma.childList root) -> emitted c (S depth) s -> emitted root depth s.
Proof.
  intros Hc [p raw namer k j s0 Hk Hj Hjk Hd Hr Hn Hp ->].
  apply (@emitted_by root depth _ p raw namer (S k) (S j) s0);
    try assumption; try lia; econstructor; eauto.
Qed.

Lemma emitted_self p root depth s :
  (depth <= 20)%nat -> isDecorative root = false -> constructs p root s ->
  emitted root depth s.
Proof.
  intros Hd Hr Hp.
  apply (@emitted_by root depth _ p root root 0 0 s);
    try assumption; try lia; try constructor.
  rewrite <- (constructs_name _ _ _ Hp). symmetry. apply withName_same.
Qed.

(** A wrapper that is flattened away hands its name to the node below. *)
Lemma emitted_rename root depth s :
  isDecorative root = false -> emitted root depth s ->
  emitted root depth (Slim.withName (name root) s).
Proof.
  intros Hr [p raw namer k j s0 Hk Hj Hjk Hd Hraw Hn Hp ->].
  apply (@emitted_by root depth _ p raw root k 0 s0);
    try assumption; try lia; try constructor.
Qed.

(** Every node of the output was emitted from a raw node of the input. *)
Lemma parse_emitted root :
  forall depth isRoot out,
    parse root depth isRoot = Some out ->
    Slim.everywhere (emitted root depth) out.
Proof.
  induction root as [root IH] using Figma.FigmaNode_ind.
  intros depth isRoot out. rewrite parse_unfold.
  destruct (Nat.ltb_spec 20 depth) as [|Hdepth]; [discriminate|].
  destruct (isDecorative root) eqn:Hdec; [discriminate|].
  destruct (isEmptyLeaf root); [discriminate|].
  destruct ((type root =? "TEXT") && Js.truthyOptStr (characters root))
    eqn:Htext.
  - apply andb_prop in Htext as [Hty _]. apply String.eqb_eq in Hty.
    destruct (characters root) as [chars|] eqn:Hch; [|discriminate].
    intros Hleaf. apply everywhere_leaf.
    + apply (emitted_self TextLeaf); auto. simpl. eauto.
    + eapply textLeaf_children; eauto.
  - set (cs := Js.collect _ _).
    assert (Hcs : Forall (Slim.everywhere (emitted root depth)) cs).
    { apply Forall_forall. intros y Hy.
      apply collect_In in Hy as (c & Hc & Hy).
      rewrite Forall_forall in IH.
      eapply everywhere_impl; [|eapply IH; eauto].
      intros s. now apply emitted_lift. }
    clearbody cs. unfold afterChildren.
    destruct ((length cs =? 0)%nat && negb (type root =? "TEXT")).
    + destruct (hasImageFill root) eqn:Himg; [|discriminate].
      intros [= <-]. apply everywhere_leaf; [|reflexivity].
      apply (emitted_self ImageFallback); simpl; auto.
    + assert (Hdefault :
                Slim.everywhere (emitted root depth) (buildSlim root isRoot cs)).
      { constructor.
        - apply (emitted_self DefaultConstruction); simpl; eauto.
        - intros l. simpl. destruct cs; [discriminate|]. now intros [= <-]. }
      destruct cs as [|child [|]]; try (intros [= <-]; exact Hdefault).
      destruct (negb isRoot && _); [|intros [= <-]; exact Hdefault].
      apply Forall_inv in Hcs.
      destruct (isGenericName (name root)); intros [= <-]; [assumption|].
      apply everywhere_withName; [|assumption].
      apply emitted_rename; [assumption|].
      now apply everywhere_here.
Qed.

(** ** Numbers *)

Lemma ltb_lt x y : Js.ltb x y = true <-> x < y.
Proof.
  unfold Js.ltb. rewrite negb_true_iff.
  split.
  - intros H. apply Qnot_le_lt. intros Hle.
    apply Qle_bool_iff in Hle. congruence.
  - intros H. destruct (Qle_bool y x) eqn:E; [|reflexivity].
    apply Qle_bool_iff in E. exfalso. exact (Qlt_not_le _ _ H E).
Qed.

Lemma ltb_ge x y : Js.ltb x y = false <-> y <= x.
Proof.
  unfold Js.ltb. rewrite negb_false_iff. apply Qle_bool_iff.
Qed.

(** [Math.round] returns the integer within a half of its argument. *)
Lemma round_near x :
  inject_Z (Js.round x) <= x + (1 # 2) /\ x - (1 # 2) < inject_Z (Js.round x).
Proof.
  unfold Js.round. split.
  - apply Qfloor_le.
  - pose proof (Qlt_floor (x + (1 # 2))) as H.
    rewrite inject_Z_plus in H. change (inject_Z 1) with 1 in H.
    set (f := inject_Z (Qfloor (x + (1 # 2)))) in *. clearbody f. lra.
Qed.

(** [roundTo2 x] is a multiple of 1/100 at most 1/200 away from [x]. *)
Lemma roundTo2_near x :
  roundTo2 x <= x + (1 # 200) /\ x - (1 # 200) < roundTo2 x.
Proof.
  unfold roundTo2. destruct (round_near (x * 100)) as [Hle Hlt].
  set (z := inject_Z (Js.round (x * 100))) in *. clearbody z.
  unfold Qdiv. change (/ 100) with (1 # 100).
  split; lra.
Qed.

(** ** C1: the scenario *)

(** A node without children that is neither text nor an image is dropped
    by the rule for nodes whose children were all filtered (line 220),
    vectors and boolean shapes included. *)
Lemma childless_pruned node depth isRoot :
  hasChildren node = false ->
  type node <> "TEXT" ->
  hasImageFill node = false ->
  parse node depth isRoot = None.
Proof.
  intros Hch Hty Himg. rewrite parse_unfold.
  destruct (20 <? depth)%nat; [reflexivity|].
  destruct (isDecorative node); [reflexivity|].
  destruct (isEmptyLeaf node); [reflexivity|].
  apply String.eqb_neq in Hty. rewrite Hty. simpl.
  assert (Figma.childList node = []) as ->.
  { unfold Figma.childList, hasChildren in *.
    destruct (children node) as [[|]|]; congruence. }
  simpl. unfold afterChildren. simpl. rewrite Hty, Himg. reflexivity.
Qed.

(** C1 (the code at the scenario): the vector is dropped at line 231, the
    wrapper "Icon Wrapper" is left without a child and is dropped too, and
    the root keeps the text alone: no Shape node named "Icon Wrapper". *)
Theorem scenario_loses_the_vector :
  parse scenarioVector 2 false = None
  /\ parse scenarioWrapper 1 false = None
  /\ parse scenarioRoot 0 true =
       Some (Slim.mkSlim "Screen" "VStack" None None None None None None None
               (Some 12) None
               (Some [Slim.mkSlim "Greeting" "Text" (Some "Hello") None None
                        None None None None None None None])).
Proof. repeat split; reflexivity. Qed.

(** ** The construction paths *)



(** ** C3: corner radius *)

(** C3 (the code at the failing inputs): the default construction tests
    the radius against 999, not 100, so a card of radius 150 keeps it; the
    image kept without children tests only that the radius is non-zero, so
    a photo of radius 1000 keeps it.  Neither lies below 100. *)
Theorem cornerRadius_beyond_100_kept :
  (exists s, parse pillCard 0 true = Some s
             /\ Slim.cornerRadius s = Some 150 /\ ~ 150 < 100)
  /\ (exists s, parse roundPhoto 0 true = Some s
                /\ Slim.cornerRadius s = Some 1000 /\ ~ 1000 < 100).
Proof.
  split; eexists; (split; [reflexivity|]); (split; [reflexivity|]);
    intros H; discriminate H.
Qed.

Lemma textLeaf_cornerRadius node chars s :
  textLeaf node chars = Some s -> Slim.cornerRadius s = None.
Proof.
  unfold textLeaf. destruct (negb _); [discriminate|].
  destruct (sfSymbol _); intros [= <-]; reflexivity.
Qed.

(** What the code does guarantee: a radius in the output is the raw one;
    it lies strictly between 0 and 999 on a node of the default
    construction and is non-zero on an image kept without children. *)
Lemma cornerRadius_of_output root depth isRoot out :
  parse root depth isRoot = Some out ->
  Slim.everywhere
    (fun s =>
       forall cr,
         Slim.cornerRadius s = Some cr ->
         (0 < cr /\ cr < 999)
         \/ (Slim.type s = "Image" /\ Slim.children s = None /\ ~ cr == 0))
    out.
Proof.
  intros H. apply parse_emitted in H.
  eapply everywhere_impl; [|exact H].
  intros s [p raw namer k j s0 _ _ _ _ _ _ Hc ->] cr.
  destruct p; simpl in Hc.
  - destruct Hc as (_ & chars & _ & Hleaf).
    apply textLeaf_cornerRadius in Hleaf. simpl. congruence.
  - destruct Hc as (_ & ->). simpl.
    unfold Js.truthyOptNum. destruct (cornerRadius raw) as [c|]; [|discriminate].
    unfold Js.truthyNum. destruct (Qeq_bool c 0) eqn:E; [discriminate|].
    intros [= <-]. right. repeat split. now apply Qeq_bool_neq.
  - destruct Hc as (r & cs & ->). simpl.
    destruct (cornerRadius raw) as [c|]; [|discriminate].
    destruct (Js.truthyNum c && Js.gtb c 0 && Js.ltb c 999) eqn:E;
      [|discriminate].
    intros [= <-]. left.
    apply andb_prop in E as [E Hlt]. apply andb_prop in E as [_ Hgt].
    split; apply ltb_lt; assumption.
Qed.

(** ** C5: decorative names *)

Ltac decide_atom b :=
  destruct b eqn:?;
  [ simpl; rewrite ?orb_true_r; reflexivity | simpl ].

(** [isDecorative] is the visibility flag or the denylist. *)
Lemma isDecorative_denylist node :
  isDecorative node =
  match visible node with Some false => true | _ => false end
  || matchesDenylist (name node) (negb (hasChildren node)).
Proof.
  unfold isDecorative, matchesDenylist, denylistedName.
  destruct (match visible node with Some false => true | _ => false end);
    [reflexivity|].
  set (n := Js.trim (Js.toLowerCase (name node))). simpl.
  decide_atom (n =? "status bar"). decide_atom (n =? "time").
  decide_atom (n =? "levels"). decide_atom (n =? "cellular connection").
  decide_atom (n =? "wifi"). decide_atom (n =? "blur").
  decide_atom (n =? "mask"). decide_atom (n =? "shadow").
  decide_atom (n =? "tint"). decide_atom (n =? "glass effect").
  decide_atom (Js.startsWith n "liquid glass").
  decide_atom (n =? "bg"). decide_atom (n =? "background").
  decide_atom (Js.startsWith n "scroll edge effect").
  decide_atom (Js.startsWith n "scrollbar").
  decide_atom (n =? "thumb"). decide_atom (n =? "grabber").
  decide_atom (n =? "cap"). decide_atom (n =? "capacity").
  decide_atom (n =? "border").
  destruct (n =? "overlay"); simpl; [|reflexivity].
  destruct (negb (hasChildren node)); reflexivity.
Qed.

Lemma not_decorative_name node :
  isDecorative node = false ->
  denylistedName (Js.trim (Js.toLowerCase (name node))) = false.
Proof.
  rewrite isDecorative_denylist. unfold matchesDenylist.
  intros H. apply orb_false_elim in H as [_ H].
  now apply orb_false_elim in H as [H _].
Qed.

(** C5 (as stated, refuted): the frame "Overlay" has a child, so it is not
    decorative; it is flattened and hands its name to its text child.  The
    output then holds a childless node named "Overlay", which matches the
    denylist. *)
Lemma overlay_name_survives_flattening :
  exists out renamed,
    parse overlayScreen 0 true = Some out
    /\ In renamed (Slim.childList out)
    /\ Slim.name renamed = "Overlay"
    /\ Slim.children renamed = None
    /\ matchesDenylist (Slim.name renamed) true = true
    /\ ~ Slim.everywhere
         (fun s =>
            matchesDenylist (Slim.name s)
              (match Slim.children s with Some (_ :: _) => false | _ => true end)
            = false)
         out.
Proof.
  eexists. eexists. split; [reflexivity|].
  split; [right; left; reflexivity|]. repeat split.
  intros H. pose proof (everywhere_children H eq_refl) as Hl.
  apply Forall_inv_tail, Forall_inv, everywhere_here in Hl.
  discriminate Hl.
Qed.

(** C5 (amended): no node of the output has a trimmed, lower-cased name on
    the denylist of names (system chrome, visual-effect layers, background
    placeholders, scroll chrome, structural noise), also after flattening
    has renamed a child to its wrapper's name.  The entry "overlay" is
    tested against the children of the raw node only and is not part of
    this guarantee. *)
Theorem no_denylisted_name_in_output root depth isRoot out :
  parse root depth isRoot = Some out ->
  Slim.everywhere
    (fun s => denylistedName (Js.trim (Js.toLowerCase (Slim.name s))) = false)
    out.
Proof.
  intros H. apply parse_emitted in H.
  eapply everywhere_impl; [|exact H].
  intros s [p raw namer k j s0 _ _ _ _ _ Hn _ ->]. simpl.
  now apply not_decorative_name.
Qed.

Lemma no_denylisted_name_in_output_witness :
  exists out,
    parse overlayScreen 0 true = Some out
    /\ Slim.everywhere
         (fun s =>
            denylistedName (Js.trim (Js.toLowerCase (Slim.name s))) = false)
         out.
Proof.
  eexists. split; [reflexivity|].
  apply (no_denylisted_name_in_output overlayScreen 0 true). reflexivity.
Defined.

(** A decorative node yields nothing, whatever it holds. *)
Lemma decorative_pruned node depth isRoot :
  isDecorative node = true -> parse node depth isRoot = None.
Proof.
  intros H. rewrite parse_unfold, H. now destruct (20 <? depth)%nat.
Qed.

(** ** C6: the depth cap *)

(** A text at level 20 is in the output; at level 25 it is not. *)
Example level_20_is_kept :
  option_map (mentions "Deep") (parse (nest 20 (textNode "T" "Deep")) 0 true)
  = Some true.
Proof. vm_compute. reflexivity. Qed.

Example level_25_is_dropped :
  option_map (mentions "Deep") (parse (nest 25 (textNode "T" "Deep")) 0 true)
  = Some false.
Proof. vm_compute. reflexivity. Qed.

(** A node beyond the cap contributes no node, yet the scan of
    [hasTextDescendant] has no cap: the kind of a node at level 25 decides
    whether the root is classified Image.  The children are the same. *)
Example deep_kind_still_classifies :
  option_map Slim.type (parse (gallery (plain "X" "RECTANGLE")) 0 true)
  = Some "Image"
  /\ option_map Slim.type (parse (gallery (textNode "X" "Deep")) 0 true)
     = Some "Frame"
  /\ option_map Slim.children (parse (gallery (plain "X" "RECTANGLE")) 0 true)
     = option_map Slim.children (parse (gallery (textNode "X" "Deep")) 0 true)
  /\ option_map (mentions "Deep") (parse (gallery (textNode "X" "Deep")) 0 true)
     = Some false.
Proof. vm_compute. repeat split. Qed.



(** ** C7: classification *)

Lemma hasTextDescendant_unfold node :
  hasTextDescendant node =
  (type node =? "TEXT") || existsb hasTextDescendant (Figma.childList node).
Proof.
  destruct node as [? ? ty [cs|] ? ? ? ? ? ? ? ? ? ? ? ?]; simpl;
    destruct (ty =? "TEXT"); reflexivity.
Qed.

(** The scan finds a text node exactly when the node or one of its
    descendants, at any depth, is of text kind. *)
Lemma hasTextDescendant_spec node :
  hasTextDescendant node = true <->
  exists k d, descendantAt k d node /\ type d = "TEXT".
Proof.
  induction node as [node IH] using Figma.FigmaNode_ind.
  rewrite hasTextDescendant_unfold, orb_true_iff, existsb_exists.
  rewrite Forall_forall in IH. split.
  - intros [H|(c & Hc & H)].
    + exists 0%nat, node. split; [constructor|now apply String.eqb_eq].
    + apply (IH c Hc) in H as (k & d & Hd & Hty).
      exists (S k), d. split; [econstructor; eauto|assumption].
  - intros (k & d & Hd & Hty). inversion Hd; subst.
    + left. now apply String.eqb_eq.
    + right. exists c. split; [assumption|]. apply IH; eauto.
Qed.

Lemma hasImageFill_spec node :
  hasImageFill node = true <->
  exists fs f, fills node = Some fs /\ In f fs /\ ptype f = "IMAGE".
Proof.
  unfold hasImageFill. destruct (fills node) as [fs|].
  - rewrite existsb_exists. split.
    + intros (f & Hf & E). apply String.eqb_eq in E. eauto.
    + intros (fs' & f & [= <-] & Hf & E). exists f.
      split; [assumption|now apply String.eqb_eq].
  - split; [discriminate|]. intros (fs & f & [=] & _).
Qed.

Lemma eqb_or (s a b : string) :
  (s =? a) || (s =? b) = true <-> s = a \/ s = b.
Proof. now rewrite orb_true_iff, !String.eqb_eq. Qed.

Lemma layout_eqb node mode :
  match layoutMode node with Some m => m =? mode | None => false end = true
  <-> layoutMode node = Some mode.
Proof.
  destruct (layoutMode node) as [m|].
  - rewrite String.eqb_eq. split; congruence.
  - split; discriminate.
Qed.

Lemma imageWithoutText_test node :
  hasImageFill node && negb (hasTextDescendant node) = true <->
  imageWithoutText node.
Proof.
  unfold imageWithoutText.
  rewrite andb_true_iff, negb_true_iff, hasImageFill_spec. split.
  - intros [Hi Ht]. split; [assumption|]. intros k d Hd Hty.
    assert (hasTextDescendant node = true) by (apply hasTextDescendant_spec; eauto).
    congruence.
  - intros [Hi Ht]. split; [assumption|].
    destruct (hasTextDescendant node) eqn:E; [|reflexivity].
    apply hasTextDescendant_spec in E as (k & d & Hd & Hty).
    exfalso. eapply Ht; eauto.
Qed.

(** C7: [classifyType] follows the precedence list, the first match
    winning: text kind gives Text; else vector or boolean-shape kind gives
    Shape; else an image fill on the node with no text-kind node in its
    subtree (itself included) gives Image, whatever the auto-layout axis;
    else a horizontal axis gives HStack; else a vertical axis gives VStack;
    else instance or component kind gives Component; else frame or group
    kind gives Frame; else View. *)
Theorem classifyType_precedence node :
  (textKind node -> classifyType node = "Text")
  /\ (~ textKind node -> shapeKind node -> classifyType node = "Shape")
  /\ (~ textKind node -> ~ shapeKind node -> imageWithoutText node ->
      classifyType node = "Image")
  /\ (~ textKind node -> ~ shapeKind node -> ~ imageWithoutText node ->
      horizontalAxis node -> classifyType node = "HStack")
  /\ (~ textKind node -> ~ shapeKind node -> ~ imageWithoutText node ->
      ~ horizontalAxis node -> verticalAxis node ->
      classifyType node = "VStack")
  /\ (~ textKind node -> ~ shapeKind node -> ~ imageWithoutText node ->
      ~ horizontalAxis node -> ~ verticalAxis node -> componentKind node ->
      classifyType node = "Component")
  /\ (~ textKind node -> ~ shapeKind node -> ~ imageWithoutText node ->
      ~ horizontalAxis node -> ~ verticalAxis node -> ~ componentKind node ->
      frameKind node -> classifyType node = "Frame")
  /\ (~ textKind node -> ~ shapeKind node -> ~ imageWithoutText node ->
      ~ horizontalAxis node -> ~ verticalAxis node -> ~ componentKind node ->
      ~ frameKind node -> classifyType node = "View").
Proof.
  unfold classifyType, textKind, shapeKind, horizontalAxis, verticalAxis,
    componentKind, frameKind.
  pose proof (String.eqb_eq (type node) "TEXT") as Ht.
  pose proof (eqb_or (type node) "VECTOR" "BOOLEAN_OPERATION") as Hs.
  pose proof (imageWithoutText_test node) as Hi.
  pose proof (layout_eqb node "HORIZONTAL") as Hh.
  pose proof (layout_eqb node "VERTICAL") as Hv.
  pose proof (eqb_or (type node) "INSTANCE" "COMPONENT") as Hc.
  pose proof (eqb_or (type node) "FRAME" "GROUP") as Hf.
  destruct (type node =? "TEXT");
    [repeat split; intros; try reflexivity; exfalso; tauto|].
  destruct ((type node =? "VECTOR") || (type node =? "BOOLEAN_OPERATION"));
    [repeat split; intros; try reflexivity; exfalso; intuition congruence|].
  destruct (hasImageFill node && negb (hasTextDescendant node));
    [repeat split; intros; try reflexivity; exfalso; intuition congruence|].
  destruct (match layoutMode node with
            | Some m => m =? "HORIZONTAL" | None => false end);
    [repeat split; intros; try reflexivity; exfalso; intuition congruence|].
  destruct (match layoutMode node with
            | Some m => m =? "VERTICAL" | None => false end);
    [repeat split; intros; try reflexivity; exfalso; intuition congruence|].
  destruct ((type node =? "INSTANCE") || (type node =? "COMPONENT"));
    [repeat split; intros; try reflexivity; exfalso; intuition congruence|].
  destruct ((type node =? "FRAME") || (type node =? "GROUP"));
    repeat split; intros; try reflexivity; exfalso; intuition congruence.
Qed.

Ltac refute :=
  unfold textKind, shapeKind, horizontalAxis, verticalAxis, componentKind,
    frameKind;
  match goal with
  | |- ~ imageWithoutText _ =>
      let H := fresh in
      intros H; apply imageWithoutText_test in H; discriminate H
  | |- ~ (_ \/ _) => let E := fresh in intros [E|E]; discriminate E
  | |- ~ _ => let E := fresh in intros E; discriminate E
  end.

Lemma classifyType_precedence_witness :
  classifyType (textNode "Title" "Hi") = "Text"
  /\ classifyType (plain "Glyph" "BOOLEAN_OPERATION") = "Shape"
  /\ classifyType photoRow = "Image"
  /\ classifyType captionedPhoto = "HStack"
  /\ classifyType scenarioRoot = "VStack"
  /\ classifyType (plain "Button" "INSTANCE") = "Component"
  /\ classifyType (plain "Box" "GROUP") = "Frame"
  /\ classifyType (plain "Dot" "ELLIPSE") = "View".
Proof.
  split.
  { apply (classifyType_precedence (textNode "Title" "Hi")). reflexivity. }
  split.
  { apply (classifyType_precedence (plain "Glyph" "BOOLEAN_OPERATION"));
      [refute | right; reflexivity]. }
  split.
  { apply (classifyType_precedence photoRow); [refute | refute |].
    apply imageWithoutText_test. reflexivity. }
  split.
  { apply (classifyType_precedence captionedPhoto);
      [refute | refute | refute | reflexivity]. }
  split.
  { apply (classifyType_precedence scenarioRoot);
      [refute | refute | refute | refute | reflexivity]. }
  split.
  { apply (classifyType_precedence (plain "Button" "INSTANCE"));
      [refute | refute | refute | refute | refute | left; reflexivity]. }
  split.
  { apply (classifyType_precedence (plain "Box" "GROUP"));
      [refute | refute | refute | refute | refute | refute
      | right; reflexivity]. }
  apply (classifyType_precedence (plain "Dot" "ELLIPSE")); refute.
Defined.

(** ** C8: token retrieval *)

(** Tree retrieval writes nothing to the console and does not read it. *)
Lemma getSwiftTree_console fetch encode fileKey nodeId token console :
  getSwiftTree fetch encode fileKey nodeId token console =
  (fst (getSwiftTree fetch encode fileKey nodeId token []), console).
Proof.
  unfold getSwiftTree, fetchFigmaNode, Async.bind, Async.await, Async.throw,
    Async.ret.
  destruct (fetch _ token) as [response|message]; [|reflexivity].
  destruct (negb (ok response)); [reflexivity|].
  destruct (json response) as [[nodes|entries]|message]; try reflexivity.
  destruct (Js.ownProperty nodes nodeId) as [nodeData|]; [reflexivity|].
  destruct (Js.inherited nodeId); reflexivity.
Qed.

(** C8: when the variables endpoint answers with a non-success response,
    [fetchFigmaVariables] returns the empty object after writing one warning
    to the console; it does not throw, so whatever is sequenced after it
    runs, and tree retrieval sequenced after it settles as it does alone. *)
Theorem fetchFigmaVariables_degrades
        fetch fileKey token response console :
  fetch ("https://api.figma.com/v1/files/" ++ fileKey ++ "/variables/local")
        token = Async.Returned response ->
  ok response = false ->
  let warning := "Variables API error " ++ Js.toString10 (status response) in
  fetchFigmaVariables fetch fileKey token console
  = (Async.Returned (ObjectBody []), (console ++ [warning])%list)
  /\ (forall (A : Type) (next : Body -> Async.t A),
        (variables <- fetchFigmaVariables fetch fileKey token ;; next variables)
          console
        = next (ObjectBody []) (console ++ [warning])%list)
  /\ (forall encode nodeId,
        fst ((_ <- fetchFigmaVariables fetch fileKey token ;;
              getSwiftTree fetch encode fileKey nodeId token) console)
        = fst (getSwiftTree fetch encode fileKey nodeId token console)).
Proof.
  intros Hfetch Hok warning.
  assert (Hrun : fetchFigmaVariables fetch fileKey token console
                 = (Async.Returned (ObjectBody []),
                    (console ++ [warning])%list)).
  { unfold fetchFigmaVariables, Async.bind, Async.await.
    rewrite Hfetch, Hok. reflexivity. }
  split; [exact Hrun|]. split.
  - intros A next. unfold Async.bind at 1. now rewrite Hrun.
  - intros encode nodeId. unfold Async.bind at 1. rewrite Hrun.
    rewrite getSwiftTree_console.
    now rewrite (getSwiftTree_console fetch encode fileKey nodeId token console).
Qed.

Lemma fetchFigmaVariables_degrades_witness :
  fetchFigmaVariables forbidden "abc123" "secret" []
  = (Async.Returned (ObjectBody []), ["Variables API error 403"]).
Proof.
  apply (@fetchFigmaVariables_degrades forbidden "abc123" "secret"
           (mkResponse false 403 "Forbidden"
                       (Async.Thrown "Unexpected token"))%Z []).
  - reflexivity.
  - reflexivity.
Defined.

(** ** C10: the depth parameter of the tool *)

(** C10: the handler of [get_swift_tree] does not read the [depth] of its
    input: two inputs with the same file key and node id, whatever their
    [depth], give the same result on every network and console.  The cap
    of the compression is the constant 20 of [parse]. *)
Theorem get_swift_tree_ignores_depth
        fetch encode stringify token input1 input2 console :
  fileKey input1 = fileKey input2 ->
  nodeId input1 = nodeId input2 ->
  get_swift_tree fetch encode stringify token input1 console
  = get_swift_tree fetch encode stringify token input2 console.
Proof.
  destruct input1 as [k1 n1 d1], input2 as [k2 n2 d2]. simpl.
  intros -> ->. reflexivity.
Qed.

Lemma get_swift_tree_ignores_depth_witness :
  get_swift_tree (serving scenarioRoot) (fun s => s) componentNames "secret"
                 (mkToolInput "abc123" "1:1" (Some 1)) []
  = get_swift_tree (serving scenarioRoot) (fun s => s) componentNames "secret"
                   (mkToolInput "abc123" "1:1" (Some 30)) [].
Proof.
  apply (@get_swift_tree_ignores_depth
           (serving scenarioRoot) (fun s => s) componentNames "secret"
           (mkToolInput "abc123" "1:1" (Some 1))
           (mkToolInput "abc123" "1:1" (Some 30)) []);
    reflexivity.
Defined.

Example get_swift_tree_scenario :
  get_swift_tree (serving scenarioRoot) (fun s => s) componentNames "secret"
                 (mkToolInput "abc123" "1:1" None) []
  = (Async.Returned (mkToolResult [mkContent "text" "Greeting"] None), []).
Proof. reflexivity. Qed.

(** * Further properties of the code *)

(** ** The construction paths, as an induction principle *)

Section ParsePaths.
Variable P : Slim.SlimNode -> Prop.
(** Whether [P] is also asked of a node built as the tree root. *)
Variable top : bool.

Hypothesis P_text :
  forall node chars s,
    type node = "TEXT" -> textLeaf node chars = Some s -> P s.
Hypothesis P_image :
  forall node, hasImageFill node = true -> P (imageFallback node).
Hypothesis P_default :
  forall node isRoot cs,
    (isRoot = true -> top = true) ->
    cs <> [] \/ type node = "TEXT" ->
    Forall (Slim.everywhere P) cs ->
    P (buildSlim node isRoot cs).
Hypothesis P_rename : forall nm s, P s -> P (Slim.withName nm s).

Lemma parse_paths root :
  forall depth isRoot out,
    (isRoot = true -> top = true) ->
    parse root depth isRoot = Some out ->
    Slim.everywhere P out.
Proof.
  induction root as [root IH] using Figma.FigmaNode_ind.
  intros depth isRoot out Htop. rewrite parse_unfold.
  destruct (20 <? depth)%nat; [discriminate|].
  destruct (isDecorative root); [discriminate|].
  destruct (isEmptyLeaf root); [discriminate|].
  destruct ((type root =? "TEXT") && Js.truthyOptStr (characters root))
    eqn:Htext.
  - apply andb_prop in Htext as [Hty _]. apply String.eqb_eq in Hty.
    destruct (characters root) as [chars|]; [|discriminate].
    intros Hleaf. apply everywhere_leaf; [eapply P_text; eauto|].
    eapply textLeaf_children; eauto.
  - set (cs := Js.collect _ _).
    assert (Hcs : Forall (Slim.everywhere P) cs).
    { apply Forall_forall. intros y Hy.
      apply collect_In in Hy as (c & Hc & Hy).
      rewrite Forall_forall in IH.
      apply (IH c Hc (S depth) false y); [discriminate|exact Hy]. }
    clearbody cs. unfold afterChildren.
    destruct ((length cs =? 0)%nat && negb (type root =? "TEXT")) eqn:Hnone.
    + destruct (hasImageFill root) eqn:Himg; [|discriminate].
      intros [= <-]. apply everywhere_leaf; [auto|reflexivity].
    + assert (Hdefault : Slim.everywhere P (buildSlim root isRoot cs)).
      { constructor.
        - apply P_default; try assumption.
          destruct cs; [right|left; discriminate].
          simpl in Hnone. apply negb_false_iff in Hnone.
          now apply String.eqb_eq.
        - intros l. simpl. destruct cs; [discriminate|]. now intros [= <-]. }
      destruct cs as [|child [|]]; try (intros [= <-]; exact Hdefault).
      destruct (negb isRoot && _); [|intros [= <-]; exact Hdefault].
      apply Forall_inv in Hcs.
      destruct (isGenericName (name root)); intros [= <-]; [assumption|].
      apply everywhere_withName; [|assumption].
      apply P_rename. now apply everywhere_here.
Qed.

End ParsePaths.

(** What [textLeaf] builds: an icon or a text, with nothing else set. *)
Lemma textLeaf_shape node chars s :
  textLeaf node chars = Some s ->
  Js.trim chars <> ""
  /\ ((exists sym, sfSymbol (Js.trim chars) = Some sym
                   /\ s = Slim.mkSlim (name node) "Icon" None (Some sym) None
                            None None None None None None None)
      \/ (sfSymbol (Js.trim chars) = None
          /\ exists fill,
               s = Slim.mkSlim (name node) "Text" (Some (Js.trim chars)) None
                     fill None None None None None None None
               /\ (forall f, fill = Some f ->
                             getSolidFill node = Some f /\ isBlack f = false))).
Proof.
  unfold textLeaf. unfold Js.truthyStr.
  destruct (Js.trim chars =? "") eqn:E; simpl; [discriminate|].
  apply String.eqb_neq in E. intros H. split; [assumption|].
  destruct (sfSymbol (Js.trim chars)) as [sym|].
  - left. exists sym. split; [reflexivity|]. now inversion H.
  - right. split; [reflexivity|]. eexists. split; [now inversion H|].
    intros f. destruct (getSolidFill node) as [f'|]; [|discriminate].
    destruct (negb (f' =? "") && negb (isBlack f')) eqn:B; [|discriminate].
    intros [= <-]. split; [reflexivity|].
    apply andb_prop in B as [_ B]. now apply negb_true_iff.
Qed.

Lemma classifyType_category node :
  In (classifyType node) categories.
Proof.
  unfold classifyType, categories.
  repeat match goal with
         | |- In (if ?b then _ else _) _ => destruct b
         end; simpl; tauto.
Qed.

(** ** The fields of an output node *)

(** X1: every node of every output carries one of the nine categories. *)
Theorem output_category root depth isRoot out :
  parse root depth isRoot = Some out ->
  Slim.everywhere (fun s => In (Slim.type s) categories) out.
Proof.
  apply (@parse_paths (fun s => In (Slim.type s) categories) true);
    try (intros; reflexivity).
  - intros node chars s _ H. apply textLeaf_shape in H as [_ H].
    destruct H as [(sym & _ & ->)|(_ & fill & -> & _)]; simpl; tauto.
  - intros node _. simpl. tauto.
  - intros node r cs _ _ _. apply classifyType_category.
  - intros nm s H. exact H.
Qed.

Lemma output_category_witness :
  exists out,
    parse overlayScreen 0 true = Some out
    /\ Slim.everywhere (fun s => In (Slim.type s) categories) out.
Proof.
  eexists. split; [reflexivity|].
  apply (@output_category overlayScreen 0 true). reflexivity.
Defined.

(** X2: a [children] field of the output is never the empty list, and a
    node without children is a Text, an Icon or an Image: a Shape, a stack,
    a Component, a Frame or a View is in the output only with children. *)
Theorem output_leaves root depth isRoot out :
  parse root depth isRoot = Some out ->
  Slim.everywhere
    (fun s =>
       Slim.children s <> Some []
       /\ (Slim.children s = None ->
           Slim.type s = "Text" \/ Slim.type s = "Icon"
           \/ Slim.type s = "Image"))
    out.
Proof.
  apply (@parse_paths _ true); try (intros; reflexivity).
  - intros node chars s _ H. apply textLeaf_shape in H as [_ H].
    destruct H as [(sym & _ & ->)|(_ & fill & -> & _)]; simpl;
      (split; [discriminate|tauto]).
  - intros node _. simpl. split; [discriminate|tauto].
  - intros node r cs _ Hcs _. simpl. destruct cs as [|c cs].
    + destruct Hcs as [Hcs|Hty]; [congruence|].
      split; [discriminate|]. intros _. left.
      unfold classifyType. now rewrite Hty.
    + split; discriminate.
  - intros nm s H. exact H.
Qed.

Lemma output_leaves_witness :
  exists out,
    parse scenarioRoot 0 true = Some out
    /\ Slim.everywhere
         (fun s =>
            Slim.children s <> Some []
            /\ (Slim.children s = None ->
                Slim.type s = "Text" \/ Slim.type s = "Icon"
                \/ Slim.type s = "Image"))
         out.
Proof.
  eexists. split; [reflexivity|].
  apply (@output_leaves scenarioRoot 0 true). reflexivity.
Defined.

(** X3: below the root, width and height are kept on Image nodes only;
    anywhere, a node has a width exactly when it has a height. *)
Theorem output_dimensions root depth isRoot out :
  parse root depth isRoot = Some out ->
  Slim.everywhere
    (fun s => Slim.width s = None <-> Slim.height s = None) out
  /\ (isRoot = false ->
      Slim.everywhere
        (fun s => Slim.width s <> None -> Slim.type s = "Image") out)
  /\ (forall cs,
        Slim.children out = Some cs ->
        Forall (Slim.everywhere
                  (fun s => Slim.width s <> None -> Slim.type s = "Image"))
               cs).
Proof.
  intros H.
  assert (Hbelow :
            forall node d o,
              parse node d false = Some o ->
              Slim.everywhere
                (fun s => Slim.width s <> None -> Slim.type s = "Image") o).
  { intros node d o.
    apply (@parse_paths _ false); try discriminate.
    - intros n chars s _ Hs. apply textLeaf_shape in Hs as [_ Hs].
      destruct Hs as [(sym & _ & ->)|(_ & fill & -> & _)]; simpl; congruence.
    - intros n _ _. reflexivity.
    - intros n r cs Hr _ _. destruct r; [specialize (Hr eq_refl); discriminate|].
      simpl. rewrite orb_false_r.
      destruct (classifyType n =? "Image") eqn:E; simpl; [|congruence].
      intros _. now apply String.eqb_eq.
    - intros nm s Hs. exact Hs. }
  split; [|split].
  - revert H. apply (@parse_paths _ true); try (intros; reflexivity).
    + intros n chars s _ Hs. apply textLeaf_shape in Hs as [_ Hs].
      destruct Hs as [(sym & _ & ->)|(_ & fill & -> & _)]; simpl; tauto.
    + intros n _. simpl. destruct (absoluteBoundingBox n); simpl;
        split; congruence.
    + intros n r cs _ _ _. simpl.
      destruct ((classifyType n =? "Image") || r);
        [destruct (absoluteBoundingBox n)|]; simpl; split; congruence.
    + intros nm s Hs. exact Hs.
  - intros ->. eapply Hbelow; eauto.
  - intros cs Hcs. destruct isRoot; [|eapply everywhere_children; eauto].
    rewrite parse_unfold in H.
    destruct (20 <? depth)%nat; [discriminate|].
    destruct (isDecorative root); [discriminate|].
    destruct (isEmptyLeaf root); [discriminate|].
    destruct ((type root =? "TEXT") && Js.truthyOptStr (characters root)).
    { destruct (characters root) as [chars|]; [|discriminate].
      apply textLeaf_children in H. congruence. }
    set (l := Js.collect _ _) in H.
    assert (Hl : Forall (Slim.everywhere
                           (fun s => Slim.width s <> None ->
                                     Slim.type s = "Image")) l).
    { apply Forall_forall. intros y Hy.
      apply collect_In in Hy as (c & _ & Hy). eapply Hbelow; eauto. }
    clearbody l. unfold afterChildren in H.
    destruct ((length l =? 0)%nat && negb (type root =? "TEXT")).
    { destruct (hasImageFill root); [|discriminate].
      injection H as <-. discriminate Hcs. }
    assert (out = buildSlim root true l) as ->.
    { destruct l as [|? [|]]; simpl in H; congruence. }
    simpl in Hcs. destruct l; [discriminate|]. now injection Hcs as <-.
Qed.

Lemma output_dimensions_witness :
  exists out,
    parse photoScreen 0 true = Some out
    /\ Slim.width out = Some 390%Z
    /\ Slim.everywhere
         (fun s => Slim.width s = None <-> Slim.height s = None) out
    /\ (forall cs,
          Slim.children out = Some cs ->
          Forall (Slim.everywhere
                    (fun s => Slim.width s <> None -> Slim.type s = "Image"))
                 cs).
Proof.
  eexists. split; [reflexivity|]. split; [reflexivity|].
  pose proof (@output_dimensions photoScreen 0 true _ eq_refl) as (H1 & _ & H3).
  split; [exact H1|exact H3].
Defined.

(** ** Padding and spacing *)

Lemma truthyOptNum_blank o : Js.truthyOptNum o = false <-> blank o.
Proof.
  unfold blank, Js.truthyOptNum, Js.truthyNum. destruct o as [x|].
  - rewrite negb_false_iff, Qeq_bool_iff. split.
    + intros H v [= <-]. exact H.
    + intros H. now apply H.
  - split; [discriminate|reflexivity].
Qed.

Lemma keepTruthy_some o v :
  keepTruthy o = Some v <-> o = Some v /\ ~ v == 0.
Proof.
  unfold keepTruthy. destruct (Js.truthyOptNum o) eqn:E.
  - split.
    + intros ->. split; [reflexivity|].
      unfold Js.truthyOptNum, Js.truthyNum in E.
      apply negb_true_iff in E. now apply Qeq_bool_neq.
    + now intros [-> _].
  - apply truthyOptNum_blank in E. split; [discriminate|].
    intros [-> Hv]. exfalso. apply Hv. now apply E.
Qed.

(** X4: [getPadding] is absent exactly when all four sides are absent or
    zero.  Otherwise each side it holds is the raw side and is not zero, a
    raw side that is absent or zero is left out, and at least one side is
    held. *)
Theorem getPadding_sides node :
  (getPadding node = None <->
   blank (paddingTop node) /\ blank (paddingRight node)
   /\ blank (paddingBottom node) /\ blank (paddingLeft node))
  /\ (forall p,
        getPadding node = Some p ->
        (forall v, Slim.top p = Some v <->
                   paddingTop node = Some v /\ ~ v == 0)
        /\ (forall v, Slim.right p = Some v <->
                      paddingRight node = Some v /\ ~ v == 0)
        /\ (forall v, Slim.bottom p = Some v <->
                      paddingBottom node = Some v /\ ~ v == 0)
        /\ (forall v, Slim.left p = Some v <->
                      paddingLeft node = Some v /\ ~ v == 0)
        /\ (Slim.top p <> None \/ Slim.right p <> None
            \/ Slim.bottom p <> None \/ Slim.left p <> None)).
Proof.
  unfold getPadding, hasMeaningfulPadding. split.
  - rewrite <- !truthyOptNum_blank.
    destruct (Js.truthyOptNum (paddingTop node)),
      (Js.truthyOptNum (paddingRight node)),
      (Js.truthyOptNum (paddingBottom node)),
      (Js.truthyOptNum (paddingLeft node)); simpl;
      split; try discriminate; try tauto;
      intros (? & ? & ? & ?); discriminate.
  - intros p.
    destruct (negb _) eqn:E; [discriminate|]. intros [= <-]. simpl.
    do 4 (split; [intros v; apply keepTruthy_some|]).
    apply negb_false_iff in E. unfold keepTruthy.
    destruct (Js.truthyOptNum (paddingTop node)) eqn:Et;
      [left; destruct (paddingTop node); [discriminate|discriminate Et]|].
    destruct (Js.truthyOptNum (paddingRight node)) eqn:Er;
      [right; left; destruct (paddingRight node);
       [discriminate|discriminate Er]|].
    destruct (Js.truthyOptNum (paddingBottom node)) eqn:Eb;
      [right; right; left; destruct (paddingBottom node);
       [discriminate|discriminate Eb]|].
    destruct (Js.truthyOptNum (paddingLeft node)) eqn:El;
      [right; right; right; destruct (paddingLeft node);
       [discriminate|discriminate El]|].
    discriminate E.
Qed.

Lemma getPadding_sides_witness :
  getPadding paddedRow
  = Some (Slim.mkPadding None None (Some 8) (Some 16))
  /\ (paddingLeft paddedRow = Some 16 /\ ~ 16 == 0).
Proof.
  split; [reflexivity|].
  destruct (proj2 (getPadding_sides paddedRow) _ eq_refl)
    as (_ & _ & _ & Hleft & _).
  apply Hleft. reflexivity.
Defined.

(** X5: spacing and padding are kept on HStack and VStack nodes only, and
    a spacing that is kept is not zero. *)
Theorem output_layout root depth isRoot out :
  parse root depth isRoot = Some out ->
  Slim.everywhere
    (fun s =>
       (Slim.spacing s <> None \/ Slim.padding s <> None ->
        Slim.type s = "HStack" \/ Slim.type s = "VStack")
       /\ (forall v, Slim.spacing s = Some v -> ~ v == 0))
    out.
Proof.
  apply (@parse_paths _ true); try (intros; reflexivity).
  - intros n chars s _ Hs. apply textLeaf_shape in Hs as [_ Hs].
    destruct Hs as [(sym & _ & ->)|(_ & fill & -> & _)]; simpl;
      (split; [intros [H|H]; congruence|discriminate]).
  - intros n _. simpl. split; [intros [H|H]; congruence|discriminate].
  - intros n r cs _ _ _. simpl.
    destruct ((classifyType n =? "HStack") || (classifyType n =? "VStack"))
      eqn:E.
    + split.
      * intros _. apply orb_prop in E as [E|E]; apply String.eqb_eq in E; auto.
      * intros v Hv. now apply keepTruthy_some in Hv.
    + split; [intros [H|H]; congruence|discriminate].
  - intros nm s Hs. exact Hs.
Qed.

Lemma output_layout_witness :
  exists out,
    parse paddedColumn 0 true = Some out
    /\ Slim.spacing out = Some 12
    /\ Slim.everywhere
         (fun s =>
            (Slim.spacing s <> None \/ Slim.padding s <> None ->
             Slim.type s = "HStack" \/ Slim.type s = "VStack")
            /\ (forall v, Slim.spacing s = Some v -> ~ v == 0))
         out.
Proof.
  eexists. split; [reflexivity|]. split; [reflexivity|].
  apply (@output_layout paddedColumn 0 true). reflexivity.
Defined.

(** ** Opacity, fill, content and icon *)




(** X7: a fill of the output is never pure black, in 6 or 8 digits; pure
    white is kept on a text leaf only (a node with content). *)
Theorem output_fill root depth isRoot out :
  parse root depth isRoot = Some out ->
  Slim.everywhere
    (fun s =>
       forall f, Slim.fill s = Some f ->
                 f <> "" /\ f <> "#000000" /\ f <> "#000000ff"
                 /\ (Slim.content s = None ->
                     f <> "#ffffff" /\ f <> "#ffffffff"))
    out.
Proof.
  apply (@parse_paths _ true); try (intros; reflexivity).
  - intros n chars s _ Hs. unfold textLeaf in Hs.
    destruct (negb _); [discriminate|].
    destruct (sfSymbol _); injection Hs as <-; simpl; [discriminate|].
    intros f. destruct (getSolidFill n) as [f'|]; [|discriminate].
    destruct (Js.truthyStr f' && negb (isBlack f')) eqn:E; [|discriminate].
    intros [= <-]. apply andb_prop in E as [Et Eb].
    unfold Js.truthyStr in Et. apply negb_true_iff in Et, Eb.
    unfold isBlack in Eb. apply orb_false_elim in Eb as [E1 E2].
    rewrite String.eqb_neq in Et, E1, E2.
    repeat split; try assumption; discriminate.
  - intros n _ f. discriminate.
  - intros n r cs _ _ _ f. simpl.
    destruct (getSolidFill n) as [f'|]; [|discriminate].
    destruct (Js.truthyStr f' && negb (isBlackOrWhite f')) eqn:E;
      [|discriminate].
    intros [= <-]. apply andb_prop in E as [Et Eb].
    unfold Js.truthyStr in Et. apply negb_true_iff in Et, Eb.
    unfold isBlackOrWhite in Eb.
    apply orb_false_elim in Eb as [Eb E4].
    apply orb_false_elim in Eb as [Eb E3].
    apply orb_false_elim in Eb as [E1 E2].
    rewrite String.eqb_neq in Et, E1, E2, E3, E4.
    repeat split; assumption.
  - intros nm s Hs. exact Hs.
Qed.

(** X8: a node with content is a childless Text whose content is not
    empty; a node with an icon is a childless Icon without content or
    fill. No other node carries content or an icon. *)
Theorem output_content_icon root depth isRoot out :
  parse root depth isRoot = Some out ->
  Slim.everywhere
    (fun s =>
       (forall c, Slim.content s = Some c ->
                  c <> "" /\ Slim.type s = "Text" /\ Slim.icon s = None
                  /\ Slim.children s = None)
       /\ (Slim.icon s <> None ->
           Slim.type s = "Icon" /\ Slim.content s = None
           /\ Slim.fill s = None /\ Slim.children s = None)
       /\ (Slim.type s = "Icon" -> Slim.icon s <> None))
    out.
Proof.
  apply (@parse_paths _ true); try (intros; reflexivity).
  - intros n chars s _ Hs. apply textLeaf_shape in Hs as [Hne Hs].
    destruct Hs as [(sym & _ & ->)|(_ & fill & -> & _)]; simpl.
    + repeat split; try discriminate.
    + split; [intros c [= <-]; auto|]. split; [congruence|discriminate].
  - intros n _. simpl. repeat split; try discriminate; congruence.
  - intros n r cs _ _ _. simpl. split; [discriminate|].
    split; [congruence|].
    intros E. exfalso. pose proof (classifyType_category n) as Hc.
    unfold classifyType in E.
    repeat match type of E with
           | (if ?b then _ else _) = _ => destruct b
           end; discriminate E.
  - intros nm s Hs. exact Hs.
Qed.

(** ** The size and the depth of the output *)

Lemma rawSize_unfold n :
  rawSize n
  = S (fold_right (fun c m => rawSize c + m)%nat 0%nat (Figma.childList n)).
Proof. destruct n as [? ? ? [cs|] ? ? ? ? ? ? ? ? ? ? ? ?]; reflexivity. Qed.

Lemma slimSize_unfold s :
  slimSize s
  = S (fold_right (fun c m => slimSize c + m)%nat 0%nat (Slim.childList s)).
Proof. destruct s as [? ? ? ? ? ? ? ? ? ? ? [cs|]]; reflexivity. Qed.

Lemma slimLevels_unfold s :
  slimLevels s
  = S (fold_right (fun c m => Nat.max (slimLevels c) m) 0%nat
                  (Slim.childList s)).
Proof. destruct s as [? ? ? ? ? ? ? ? ? ? ? [cs|]]; reflexivity. Qed.

Lemma buildSlim_childList node isRoot cs :
  Slim.childList (buildSlim node isRoot cs) = cs.
Proof. unfold Slim.childList. simpl. now destruct cs. Qed.

Lemma textLeaf_childList node chars s :
  textLeaf node chars = Some s -> Slim.childList s = [].
Proof.
  intros H. unfold Slim.childList. now rewrite (textLeaf_children _ _ H).
Qed.

(** What [afterChildren] returns: the image without children, the single
    child under its name or under the wrapper's, or the default node. *)
Lemma afterChildren_cases node isRoot cs out :
  afterChildren node isRoot cs = Some out ->
  (cs = [] /\ out = imageFallback node)
  \/ (exists child nm, cs = [child] /\ out = Slim.withName nm child)
  \/ out = buildSlim node isRoot cs.
Proof.
  unfold afterChildren.
  destruct ((length cs =? 0)%nat && negb (type node =? "TEXT")) eqn:E.
  - destruct (hasImageFill node); [|discriminate]. intros [= <-]. left.
    split; [|reflexivity]. apply andb_prop in E as [E _].
    destruct cs; [reflexivity|discriminate].
  - destruct cs as [|child [|]]; try (intros [= <-]; auto).
    destruct (negb isRoot && _); [|intros [= <-]; auto].
    destruct (isGenericName (name node)); intros [= <-]; right; left.
    + exists child, (Slim.name child). split; [reflexivity|].
      symmetry. apply withName_same.
    + eauto.
Qed.

Lemma collect_size (f : FigmaNode -> option Slim.SlimNode) l :
  Forall (fun c => forall s, f c = Some s -> (slimSize s <= rawSize c)%nat) l ->
  (fold_right (fun c m => slimSize c + m) 0 (Js.collect f l)
   <= fold_right (fun c m => rawSize c + m) 0 l)%nat.
Proof.
  induction 1 as [|c l Hc _ IH]; simpl; [lia|].
  destruct (f c) as [s|]; simpl; [specialize (Hc s eq_refl)|]; lia.
Qed.

(** X9: compression never adds nodes: the output tree has at most as many
    nodes as the raw tree it comes from. *)
Theorem output_size root :
  forall depth isRoot out,
    parse root depth isRoot = Some out ->
    (slimSize out <= rawSize root)%nat.
Proof.
  induction root as [root IH] using Figma.FigmaNode_ind.
  intros depth isRoot out. rewrite parse_unfold.
  destruct (20 <? depth)%nat; [discriminate|].
  destruct (isDecorative root); [discriminate|].
  destruct (isEmptyLeaf root); [discriminate|].
  rewrite rawSize_unfold.
  destruct ((type root =? "TEXT") && Js.truthyOptStr (characters root)).
  - destruct (characters root) as [chars|]; [|discriminate].
    intros H. rewrite slimSize_unfold, (textLeaf_childList _ _ H). simpl. lia.
  - intros H.
    assert (Hsum := @collect_size
                      (fun child => parse child (S depth) false)
                      (Figma.childList root)).
    rewrite Forall_forall in IH. rewrite Forall_forall in Hsum.
    specialize (Hsum (fun c Hc s Hs => IH c Hc (S depth) false s Hs)).
    apply afterChildren_cases in H
      as [[_ ->]|[(child & nm & E & ->)| ->]].
    + simpl. lia.
    + rewrite E in Hsum. simpl in Hsum.
      assert (slimSize (Slim.withName nm child) = slimSize child) as ->
          by now destruct child.
      lia.
    + rewrite slimSize_unfold, buildSlim_childList. lia.
Qed.

Lemma output_size_witness :
  exists out,
    parse overlayScreen 0 true = Some out
    /\ slimSize out = 3%nat /\ rawSize overlayScreen = 4%nat
    /\ (slimSize out <= rawSize overlayScreen)%nat.
Proof.
  eexists. split; [reflexivity|]. split; [reflexivity|].
  split; [reflexivity|].
  apply (@output_size overlayScreen 0 true). reflexivity.
Defined.

Lemma collect_levels (f : FigmaNode -> option Slim.SlimNode) l bound :
  (forall c s, In c l -> f c = Some s -> (slimLevels s <= bound)%nat) ->
  (fold_right (fun c m => Nat.max (slimLevels c) m) 0 (Js.collect f l)
   <= bound)%nat.
Proof.
  induction l as [|c l IH]; simpl; intros H; [lia|].
  assert (Hl := IH (fun c' s Hc => H c' s (or_intror Hc))).
  destruct (f c) as [s|] eqn:E; simpl; [|assumption].
  specialize (H c s (or_introl eq_refl) E). lia.
Qed.

(** X10: an output tree compressed from depth [depth] has at most
    [21 - depth] levels; the tree of a whole document has at most 21. *)
Theorem output_levels root :
  forall depth isRoot out,
    parse root depth isRoot = Some out ->
    (slimLevels out + depth <= 21)%nat.
Proof.
  induction root as [root IH] using Figma.FigmaNode_ind.
  intros depth isRoot out. rewrite parse_unfold.
  destruct (Nat.ltb_spec 20 depth) as [|Hdepth]; [discriminate|].
  destruct (isDecorative root); [discriminate|].
  destruct (isEmptyLeaf root); [discriminate|].
  destruct ((type root =? "TEXT") && Js.truthyOptStr (characters root)).
  - destruct (characters root) as [chars|]; [|discriminate].
    intros H. rewrite slimLevels_unfold, (textLeaf_childList _ _ H). simpl. lia.
  - intros H. rewrite Forall_forall in IH.
    assert (Hmax := @collect_levels
                      (fun child => parse child (S depth) false)
                      (Figma.childList root) (20 - depth)).
    assert (Hkids : forall c s, In c (Figma.childList root) ->
                                parse c (S depth) false = Some s ->
                                (slimLevels s <= 20 - depth)%nat).
    { intros c s Hc Hs. specialize (IH c Hc (S depth) false s Hs). lia. }
    specialize (Hmax Hkids).
    apply afterChildren_cases in H
      as [[_ ->]|[(child & nm & E & ->)| ->]].
    + simpl. lia.
    + rewrite E in Hmax. cbn [fold_right] in Hmax.
      rewrite Nat.max_0_r in Hmax.
      assert (slimLevels (Slim.withName nm child) = slimLevels child) as ->
          by now destruct child.
      lia.
    + rewrite slimLevels_unfold, buildSlim_childList. lia.
Qed.

Lemma output_levels_witness :
  exists out,
    parse (nest 25 (textNode "T" "Deep")) 0 true = Some out
    /\ slimLevels out = 20%nat
    /\ (slimLevels out + 0 <= 21)%nat.
Proof.
  eexists. split; [vm_compute; reflexivity|]. split; [vm_compute; reflexivity|].
  apply (@output_levels (nest 25 (textNode "T" "Deep")) 0 true).
  vm_compute. reflexivity.
Defined.

Lemma output_fill_witness :
  exists out,
    parse styledCard 0 true = Some out
    /\ Slim.fill out = Some "#ff0000"
    /\ Slim.everywhere
         (fun s =>
            forall f, Slim.fill s = Some f ->
                      f <> "" /\ f <> "#000000" /\ f <> "#000000ff"
                      /\ (Slim.content s = None ->
                          f <> "#ffffff" /\ f <> "#ffffffff"))
         out.
Proof.
  eexists. split; [reflexivity|]. split; [reflexivity|].
  apply (@output_fill styledCard 0 true). reflexivity.
Defined.

Lemma output_content_icon_witness :
  exists out,
    parse styledCard 0 true = Some out
    /\ Slim.everywhere
         (fun s =>
            (forall c, Slim.content s = Some c ->
                       c <> "" /\ Slim.type s = "Text" /\ Slim.icon s = None
                       /\ Slim.children s = None)
            /\ (Slim.icon s <> None ->
                Slim.type s = "Icon" /\ Slim.content s = None
                /\ Slim.fill s = None /\ Slim.children s = None)
            /\ (Slim.type s = "Icon" -> Slim.icon s <> None))
         out.
Proof.
  eexists. split; [reflexivity|].
  apply (@output_content_icon styledCard 0 true). reflexivity.
Defined.

(** ** Names *)

(** X11: compression invents no name: every name in the output is the
    name of a raw node that is not decorative and lies within the cap. *)
Theorem output_names root depth isRoot out :
  parse root depth isRoot = Some out ->
  Slim.everywhere
    (fun s =>
       exists raw k,
         descendantAt k raw root /\ (depth + k <= 20)%nat
         /\ isDecorative raw = false /\ Slim.name s = name raw)
    out.
Proof.
  intros H. apply parse_emitted in H.
  eapply everywhere_impl; [|exact H].
  intros s [p raw namer k j s0 _ Hj Hjk Hd _ Hn _ ->].
  exists namer, j. repeat split; try assumption. lia.
Qed.

Lemma output_names_witness :
  exists out,
    parse overlayScreen 0 true = Some out
    /\ Slim.everywhere
         (fun s =>
            exists raw k,
              descendantAt k raw overlayScreen /\ (0 + k <= 20)%nat
              /\ isDecorative raw = false /\ Slim.name s = name raw)
         out.
Proof.
  eexists. split; [reflexivity|].
  apply (@output_names overlayScreen 0 true). reflexivity.
Defined.

(** ** The entries of the SF Symbol table *)

Lemma SF_SYMBOLS_truthy k v :
  Js.ownProperty SF_SYMBOLS k = Some v -> Js.truthyStr v = true.
Proof.
  unfold SF_SYMBOLS. simpl.
  repeat match goal with
         | |- (if ?b then _ else _) = _ -> _ =>
             destruct b; [intros [= <-]; reflexivity|]
         end.
  discriminate.
Qed.

Lemma inherited_not_own k :
  Js.inherited k = true -> Js.ownProperty SF_SYMBOLS k = None.
Proof.
  unfold Js.inherited, Js.objectPrototypeKeys. simpl.
  rewrite !orb_true_iff, !String.eqb_eq.
  intros H. repeat destruct H as [H|H]; try discriminate H; subst;
    reflexivity.
Qed.

(** ** Empty leaves *)

(** X14: a frame, group, rectangle, instance or component without children
    is dropped as an empty leaf before its fills are looked at: an image
    fill does not save it. *)
Theorem childless_container_pruned node depth isRoot :
  hasChildren node = false ->
  type node = "FRAME" \/ type node = "GROUP" \/ type node = "RECTANGLE"
  \/ type node = "INSTANCE" \/ type node = "COMPONENT" ->
  parse node depth isRoot = None.
Proof.
  intros Hkids Hty. rewrite parse_unfold.
  destruct (20 <? depth)%nat; [reflexivity|].
  destruct (isDecorative node); [reflexivity|].
  assert (isEmptyLeaf node = true) as ->; [|reflexivity].
  unfold isEmptyLeaf. rewrite Hkids.
  destruct Hty as [-> | [-> | [-> | [-> | ->]]]]; reflexivity.
Qed.

Lemma childless_container_pruned_witness :
  hasImageFill photoRectangle = true
  /\ parse photoRectangle 1 false = None.
Proof.
  split; [reflexivity|].
  apply (@childless_container_pruned photoRectangle 1 false).
  - reflexivity.
  - right. right. left. reflexivity.
Defined.

(** ** Colours *)

Lemma round_channel q :
  inUnit q -> (0 <= Js.round (q * 255) <= 255)%Z.
Proof.
  intros [H0 H1]. unfold Js.round. split.
  - apply Z.le_trans with (Qfloor (1 # 2)); [vm_compute; discriminate|].
    apply Qfloor_resp_le. lra.
  - apply Z.le_trans with (Qfloor (511 # 2)); [|vm_compute; discriminate].
    apply Qfloor_resp_le. lra.
Qed.

Lemma byte_two_digits z :
  (0 <= z <= 255)%Z ->
  twoHexDigits (Js.padStart2 (Js.toString16 z)) = true.
Proof.
  intros Hz.
  assert (Hall : forallb
                   (fun n => twoHexDigits
                               (Js.padStart2 (Js.toString16 (Z.of_nat n))))
                   (seq 0 256) = true) by (vm_compute; reflexivity).
  rewrite forallb_forall in Hall.
  specialize (Hall (Z.to_nat z)). rewrite Z2Nat.id in Hall by lia.
  apply Hall, in_seq. lia.
Qed.

Lemma hex2_two_digits q : inUnit q -> twoHexDigits (hex2 q) = true.
Proof. intros H. apply byte_two_digits, round_channel, H. Qed.

Lemma allHex_app s t : allHex (s ++ t) = allHex s && allHex t.
Proof.
  induction s as [|c s IH]; simpl; [reflexivity|].
  now rewrite IH, andb_assoc.
Qed.

Lemma string_length_app s t :
  String.length (s ++ t) = (String.length s + String.length t)%nat.
Proof. induction s as [|c s IH]; simpl; [reflexivity|]. now rewrite IH. Qed.

(** X15: for a colour whose four channels lie between 0 and 1,
    [rgbaToHex] gives "#" followed by lower-case hexadecimal digits: six of
    them when alpha is 1, eight when alpha is below 1. *)
Theorem rgbaToHex_shape c :
  inUnit (r c) -> inUnit (g c) -> inUnit (b c) -> inUnit (a c) ->
  exists digits,
    rgbaToHex c = String "#" digits
    /\ allHex digits = true
    /\ (a c < 1 -> String.length digits = 8%nat)
    /\ (~ a c < 1 -> String.length digits = 6%nat).
Proof.
  intros Hr Hg Hb Ha.
  apply hex2_two_digits in Hr, Hg, Hb, Ha.
  unfold twoHexDigits in *.
  apply andb_prop in Hr as [Lr Xr], Hg as [Lg Xg], Hb as [Lb Xb],
      Ha as [La Xa].
  apply Nat.eqb_eq in Lr, Lg, Lb, La.
  unfold rgbaToHex. destruct (Js.ltb (a c) 1) eqn:E.
  - apply ltb_lt in E. eexists. split; [reflexivity|].
    rewrite !allHex_app, !string_length_app, Xr, Xg, Xb, Xa, Lr, Lg, Lb, La.
    repeat split; tauto.
  - apply ltb_ge in E. eexists. split; [reflexivity|].
    rewrite !allHex_app, !string_length_app, Xr, Xg, Xb, Lr, Lg, Lb.
    repeat split; try reflexivity.
    intros H. exfalso. exact (Qlt_not_le _ _ H E).
Qed.

Lemma rgbaToHex_shape_witness :
  exists digits,
    rgbaToHex (mkColor (190 # 255) (132 # 255) (93 # 255) (1 # 2))
    = String "#" digits
    /\ digits = "be845d80"
    /\ allHex digits = true.
Proof.
  destruct (@rgbaToHex_shape
              (mkColor (190 # 255) (132 # 255) (93 # 255) (1 # 2)))
    as (digits & E & Hhex & _);
    try (split; discriminate).
  exists digits. split; [exact E|]. split; [|exact Hhex].
  vm_compute in E. now injection E as <-.
Defined.

Lemma rgbaToHex_truthy c : Js.truthyStr (rgbaToHex c) = true.
Proof. unfold rgbaToHex. now destruct (Js.ltb (a c) 1). Qed.

(** ** The solid fill *)

Lemma usableSolid_test p :
  (ptype p =? "SOLID")
  && match color p with Some _ => true | None => false end = true
  <-> usableSolid p.
Proof.
  unfold usableSolid. rewrite andb_true_iff, String.eqb_eq.
  destruct (color p); split; intros [? ?]; split; congruence.
Qed.

(** X16: [getSolidFill] reads the first fill that is solid and has a
    colour, passing over images and colourless fills before it; it is
    absent exactly when the node has no fills or none of them qualifies;
    and it is never the empty string. *)
Theorem getSolidFill_first node :
  (forall before p c after,
      fills node = Some (before ++ p :: after)%list ->
      (forall q, In q before -> ~ usableSolid q) ->
      ptype p = "SOLID" -> color p = Some c ->
      getSolidFill node = Some (rgbaToHex c))
  /\ (getSolidFill node = None <->
      forall fs p, fills node = Some fs -> In p fs -> ~ usableSolid p)
  /\ getSolidFill node <> Some "".
Proof.
  unfold getSolidFill. split; [|split].
  - intros before p c after Hf Hbefore Hty Hc. rewrite Hf. clear Hf.
    assert (Hfind :
              find (fun f => (ptype f =? "SOLID")
                             && match color f with
                                | Some _ => true | None => false end)
                   (before ++ p :: after)%list = Some p).
    { induction before as [|q before IH]; simpl.
      - rewrite Hty, Hc. reflexivity.
      - destruct ((ptype q =? "SOLID") && _) eqn:E.
        + apply usableSolid_test in E. exfalso.
          apply (Hbefore q); [now left|assumption].
        + apply IH. intros q' Hq'. apply Hbefore. now right. }
    rewrite Hfind, Hc. reflexivity.
  - destruct (fills node) as [fs|].
    + destruct (find _ fs) as [p|] eqn:E.
      * apply find_some in E as [Hin Hp]. apply usableSolid_test in Hp.
        destruct (color p) as [c|] eqn:Hc.
        -- split; [discriminate|]. intros H. exfalso.
           exact (H fs p eq_refl Hin Hp).
        -- destruct Hp as [_ Hp]. congruence.
      * split; [|reflexivity]. intros _ fs' p [= <-] Hin Hp.
        apply usableSolid_test in Hp.
        pose proof (find_none _ _ E p Hin) as Hno. simpl in Hno. congruence.
    + split; [|reflexivity]. intros _ fs p. discriminate.
  - destruct (fills node) as [fs|]; [|discriminate].
    destruct (find _ fs) as [p|]; [|discriminate].
    destruct (color p) as [c|]; [|discriminate].
    intros [= E]. pose proof (rgbaToHex_truthy c) as Ht.
    rewrite E in Ht. discriminate Ht.
Qed.

Lemma getSolidFill_first_witness :
  getSolidFill styledCard = Some "#ff0000".
Proof.
  apply (proj1 (getSolidFill_first styledCard)
               [mkPaint "IMAGE" None None; mkPaint "SOLID" None None]
               (solid 1 0 0 1) (mkColor 1 0 0 1) [solid 0 0 1 1]).
  - reflexivity.
  - intros q [<-|[<-|[]]] [Hty Hc].
    + discriminate Hty.
    + apply Hc. reflexivity.
  - reflexivity.
  - reflexivity.
Defined.

(** ** The tool handler *)

(** X18: the handler of [get_swift_tree] never throws and writes nothing
    to the console.  It returns one text item: the serialized tree when
    tree retrieval returns, and otherwise the thrown message behind
    "Error fetching Figma node: " with the error flag set. *)
Theorem get_swift_tree_never_throws
        fetch encode stringify token input console :
  exists result,
    get_swift_tree fetch encode stringify token input console
    = (Async.Returned result, console)
    /\ ((exists tree,
           fst (getSwiftTree fetch encode (fileKey input) (nodeId input)
                             token console) = Async.Returned tree
           /\ result = mkToolResult [mkContent "text" (stringify tree)] None)
        \/ (exists message,
              fst (getSwiftTree fetch encode (fileKey input) (nodeId input)
                                token console) = Async.Thrown message
              /\ result
                 = mkToolResult
                     [mkContent "text"
                                ("Error fetching Figma node: " ++ message)]
                     (Some true))).
Proof.
  unfold get_swift_tree, Async.tryCatch, Async.bind, Async.ret.
  rewrite getSwiftTree_console. simpl.
  destruct (fst (getSwiftTree fetch encode (fileKey input) (nodeId input)
                              token [])) as [tree|message].
  - eexists. split; [reflexivity|]. left. eauto.
  - eexists. split; [reflexivity|]. right. eauto.
Qed.

(** X19: a non-success answer of the nodes endpoint is reported, not
    thrown: the result carries the error flag and a text that names the
    status and repeats the body of the answer. *)
Theorem upstream_failure_reported
        fetch encode stringify token input response console :
  fetch (nodesUrl encode (fileKey input) (nodeId input)) token
  = Async.Returned response ->
  ok response = false ->
  get_swift_tree fetch encode stringify token input console
  = (Async.Returned
       (mkToolResult
          [mkContent "text"
             ("Error fetching Figma node: Figma API error "
              ++ Js.toString10 (status response) ++ ": " ++ text response)]
          (Some true)),
     console).
Proof.
  intros Hfetch Hok.
  unfold get_swift_tree, Async.tryCatch, Async.bind, getSwiftTree,
    fetchFigmaNode, Async.bind, Async.await, Async.throw, Async.ret.
  fold (nodesUrl encode (fileKey input) (nodeId input)).
  rewrite Hfetch, Hok. reflexivity.
Qed.

Lemma upstream_failure_reported_witness :
  get_swift_tree forbidden (fun s => s) componentNames "secret"
                 (mkToolInput "abc123" "1:1" None) []
  = (Async.Returned
       (mkToolResult
          [mkContent "text"
             "Error fetching Figma node: Figma API error 403: Forbidden"]
          (Some true)),
     []).
Proof.
  apply (@upstream_failure_reported forbidden (fun s => s) componentNames
           "secret" (mkToolInput "abc123" "1:1" None)
           (mkResponse false 403 "Forbidden"
                       (Async.Thrown "Unexpected token"))%Z []).
  - reflexivity.
  - reflexivity.
Defined.

(** X20: a node id that the answer does not hold is reported as not
    found, with the id and the file key, instead of an empty tree. *)
Theorem missing_node_reported
        fetch encode stringify token input response nodes console :
  fetch (nodesUrl encode (fileKey input) (nodeId input)) token
  = Async.Returned response ->
  ok response = true ->
  json response = Async.Returned (NodesBody nodes) ->
  Js.ownProperty nodes (nodeId input) = None ->
  Js.inherited (nodeId input) = false ->
  get_swift_tree fetch encode stringify token input console
  = (Async.Returned
       (mkToolResult
          [mkContent "text"
             ("Error fetching Figma node: Node " ++ nodeId input
              ++ " not found in file " ++ fileKey input)]
          (Some true)),
     console).
Proof.
  intros Hfetch Hok Hjson Hnone Hinh.
  unfold get_swift_tree, Async.tryCatch, Async.bind, getSwiftTree,
    fetchFigmaNode, Async.bind, Async.await, Async.throw, Async.ret.
  fold (nodesUrl encode (fileKey input) (nodeId input)).
  rewrite Hfetch, Hok. simpl. rewrite Hjson, Hnone, Hinh. reflexivity.
Qed.

Lemma missing_node_reported_witness :
  get_swift_tree servingNothing (fun s => s) componentNames "secret"
                 (mkToolInput "abc123" "9:9" None) []
  = (Async.Returned
       (mkToolResult
          [mkContent "text"
             "Error fetching Figma node: Node 9:9 not found in file abc123"]
          (Some true)),
     []).
Proof.
  apply (@missing_node_reported servingNothing (fun s => s) componentNames
           "secret" (mkToolInput "abc123" "9:9" None)
           (mkResponse true 200 "" (Async.Returned (NodesBody [])))%Z [] []);
    reflexivity.
Defined.

(** ** Tokens *)

Lemma collect_app (A B : Type) (f : A -> option B) l l' :
  Js.collect f (l ++ l')%list = (Js.collect f l ++ Js.collect f l')%list.
Proof.
  induction l as [|x l IH]; simpl; [reflexivity|].
  destruct (f x); simpl; now rewrite IH.
Qed.

(** X21: [extractTokens] keeps exactly the entries whose value is a
    string, under their key and in their order, except an entry under the
    key "__proto__", which a fresh object ignores; numbers, booleans, null,
    arrays and objects are dropped. *)
Theorem extractTokens_strings styles :
  (forall key value,
      In (key, value) (extractTokens styles) <->
      In (key, Js.VStr value) styles /\ key <> "__proto__")
  /\ (forall more,
        extractTokens (styles ++ more)%list
        = (extractTokens styles ++ extractTokens more)%list).
Proof.
  split; [|intros more; apply collect_app].
  intros key value. unfold extractTokens.
  induction styles as [|[k v] styles IH]; simpl; [tauto|].
  destruct v as [| bv | x | s | l | o]; simpl;
    try (rewrite IH; split;
         [intros [H1 H2]; split; [right|]; assumption
         |intros [[H|H] H2]; [discriminate H|split; assumption]]).
  destruct (k =? "__proto__") eqn:E.
  - apply String.eqb_eq in E. rewrite IH. split.
    + intros [H1 H2]. split; [right|]; assumption.
    + intros [[H|H] H2]; [|split; assumption].
      injection H as -> ->. contradiction.
  - apply String.eqb_neq in E. simpl. rewrite IH. split.
    + intros [H|[H1 H2]].
      * injection H as -> ->. split; [now left|assumption].
      * split; [right|]; assumption.
    + intros [[H|H] H2].
      * injection H as -> ->. now left.
      * right. split; assumption.
Qed.

Lemma extractTokens_strings_witness :
  exists tree,
    getSwiftTree (servingStyled scenarioRoot) (fun s => s)
                 "abc123" "1:1" "secret" []
    = (Async.Returned tree, [])
    /\ Slim.tokens tree
       = [("Brand/Primary", "#be845d"); ("Labels/Secondary", "#3c3c43")]
    /\ In ("Brand/Primary", Js.VStr "#be845d")
          [("Brand/Primary", Js.VStr "#be845d"); ("Spacing/M", Js.VNum 16);
           ("__proto__", Js.VStr "x");
           ("Labels/Secondary", Js.VStr "#3c3c43")].
Proof.
  eexists. split; [reflexivity|]. split; [reflexivity|].
  apply (proj1 (extractTokens_strings
                  [("Brand/Primary", Js.VStr "#be845d");
                   ("Spacing/M", Js.VNum 16);
                   ("__proto__", Js.VStr "x");
                   ("Labels/Secondary", Js.VStr "#3c3c43")])
               "Brand/Primary" "#be845d").
  left. reflexivity.
Defined.

(** ** Children that compress to nothing *)

Lemma hasChildren_cons n c cs :
  children n = Some (c :: cs) -> hasChildren n = true.
Proof. unfold hasChildren. now intros ->. Qed.

Lemma afterChildren_withChildren node kids isRoot cs :
  hasTextDescendant (withChildren kids node) = hasTextDescendant node ->
  afterChildren (withChildren kids node) isRoot cs
  = afterChildren node isRoot cs.
Proof.
  intros Htext.
  assert (Hclass : classifyType (withChildren kids node) = classifyType node).
  { unfold classifyType. rewrite Htext. reflexivity. }
  unfold afterChildren, buildSlim. rewrite Hclass. reflexivity.
Qed.

(** X22: a child that compresses to nothing leaves no trace, provided it
    holds no text node and is not the only child: the parent compresses as
    if the child were not there. *)
Theorem pruned_child_leaves_no_trace
        node before pruned after depth isRoot :
  children node = Some (before ++ pruned :: after)%list ->
  parse pruned (S depth) false = None ->
  hasTextDescendant pruned = false ->
  (before ++ after)%list <> [] ->
  parse (withChildren (before ++ after) node) depth isRoot
  = parse node depth isRoot.
Proof.
  intros Hkids Hnone Htext Hrest.
  assert (Hhas : hasChildren node = true).
  { destruct before; simpl in Hkids; eapply hasChildren_cons; eauto. }
  assert (Hhas' : hasChildren (withChildren (before ++ after) node) = true).
  { unfold hasChildren. simpl. destruct (before ++ after)%list; congruence. }
  assert (Hdec : isDecorative (withChildren (before ++ after) node)
                 = isDecorative node).
  { unfold isDecorative. rewrite Hhas, Hhas'. reflexivity. }
  assert (Hleaf : isEmptyLeaf (withChildren (before ++ after) node)
                  = isEmptyLeaf node).
  { unfold isEmptyLeaf. rewrite Hhas, Hhas'. reflexivity. }
  assert (Hscan : hasTextDescendant (withChildren (before ++ after) node)
                  = hasTextDescendant node).
  { rewrite !hasTextDescendant_unfold. unfold Figma.childList.
    rewrite Hkids. simpl. rewrite !existsb_app. simpl.
    now rewrite Htext. }
  rewrite !parse_unfold, Hdec, Hleaf.
  rewrite (afterChildren_withChildren _ _ _ _ Hscan).
  unfold Figma.childList. rewrite Hkids. simpl.
  rewrite !collect_app. simpl. rewrite Hnone. reflexivity.
Qed.

Lemma pruned_child_leaves_no_trace_witness :
  parse (withChildren [textNode "Left" "A"; textNode "Right" "B"]
                      rowWithHiddenBadge) 1 false
  = parse rowWithHiddenBadge 1 false.
Proof.
  apply (@pruned_child_leaves_no_trace rowWithHiddenBadge
           [textNode "Left" "A"]
           (withVisible false
              (withChildren [plain "Dot" "VECTOR"] (plain "Badge" "FRAME")))
           [textNode "Right" "B"] 1 false).
  - reflexivity.
  - reflexivity.
  - reflexivity.
  - discriminate.
Defined.

(** * Properties over the runtime

    The properties of this part are proved of the embedding over the
    runtime: they hold for every [toLowerCase], [trim], product and
    quotient, hence for those of JavaScript. *)

Section RuntimeFacts.
Variable toLowerCase : string -> string.
Variable trim : string -> string.
Variable times : Q -> Q -> Q.
Variable over : Q -> Q -> Q.

Lemma runtime_parse_unfold node depth isRoot :
  Generic.parse toLowerCase trim times over node depth isRoot =
  if (20 <? depth)%nat then None
  else if Generic.isDecorative toLowerCase trim node then None
  else if Generic.isEmptyLeaf trim node then None
  else if (type node =? "TEXT") && Js.truthyOptStr (characters node) then
    match characters node with
    | Some chars => Generic.textLeaf trim times node chars
    | None => None
    end
  else
    Generic.afterChildren toLowerCase times over node isRoot
      (Generic.survivors toLowerCase trim times over node depth).
Proof. destruct node as [? ? ? [cs|] ? ? ? ? ? ? ? ? ? ? ? ?]; reflexivity. Qed.

Lemma runtime_textLeaf_children node chars s :
  Generic.textLeaf trim times node chars = Some s -> Slim.children s = None.
Proof.
  unfold Generic.textLeaf. destruct (negb _); [discriminate|].
  destruct (sfSymbol _); intros [= <-]; reflexivity.
Qed.


Lemma runtime_rgbaToHex_truthy c :
  Js.truthyStr (Generic.rgbaToHex times c) = true.
Proof. unfold Generic.rgbaToHex. now destruct (Js.ltb (a c) 1). Qed.

Lemma runtime_getSolidFill_truthy node fill :
  Generic.getSolidFill times node = Some fill -> Js.truthyStr fill = true.
Proof.
  unfold Generic.getSolidFill. destruct (fills node) as [fs|]; [|discriminate].
  destruct (find _ fs) as [p|]; [|discriminate].
  destruct (color p) as [c|]; [|discriminate].
  intros [= <-]. apply runtime_rgbaToHex_truthy.
Qed.

(** A child survives only below the cap. *)
Lemma runtime_survivor_depth node depth child :
  In child (Generic.survivors toLowerCase trim times over node depth) ->
  (depth < 20)%nat.
Proof.
  intros Hin. apply collect_In in Hin as (c & _ & Hc).
  rewrite runtime_parse_unfold in Hc.
  destruct (Nat.ltb_spec 20 (S depth)); [discriminate|lia].
Qed.

(** A node that passes the guards and has a surviving child reaches the
    rules of lines 219-302 with its surviving children. *)
Lemma runtime_parse_container node depth isRoot :
  Generic.isDecorative toLowerCase trim node = false ->
  ~ textWithCharacters node ->
  Generic.survivors toLowerCase trim times over node depth <> [] ->
  Generic.parse toLowerCase trim times over node depth isRoot
  = Generic.afterChildren toLowerCase times over node isRoot
      (Generic.survivors toLowerCase trim times over node depth).
Proof.
  intros Hdec Htext Hsurv.
  assert (Hdepth : (depth < 20)%nat).
  { destruct (Generic.survivors toLowerCase trim times over node depth)
      as [|c l] eqn:E; [congruence|].
    apply (@runtime_survivor_depth node depth c). rewrite E. now left. }
  rewrite runtime_parse_unfold.
  destruct (Nat.ltb_spec 20 depth) as [|_]; [lia|]. rewrite Hdec.
  assert (Hkids : hasChildren node = true).
  { unfold Generic.survivors, Figma.childList, hasChildren in *.
    destruct (children node) as [[|]|]; try reflexivity;
      exfalso; apply Hsurv; reflexivity. }
  assert (Htext' :
            (type node =? "TEXT") && Js.truthyOptStr (characters node) = false).
  { destruct (type node =? "TEXT") eqn:Ety; [|reflexivity]. simpl.
    destruct (characters node) as [chars|] eqn:Ech; [|reflexivity]. simpl.
    unfold Js.truthyStr. destruct (chars =? "") eqn:E; [reflexivity|].
    exfalso. apply Htext. split; [now apply String.eqb_eq|].
    exists chars. split; [exact Ech|]. now apply String.eqb_neq. }
  assert (Generic.isEmptyLeaf trim node = false) as ->.
  { unfold Generic.isEmptyLeaf. rewrite Hkids.
    now destruct ((type node =? "TEXT") && Js.truthyOptStr (option_map _ _)). }
  now rewrite Htext'.
Qed.

Lemma runtime_isGenericName nm :
  Generic.isGenericName toLowerCase nm = true <-> genericName (toLowerCase nm).
Proof.
  unfold Generic.isGenericName, genericName.
  repeat rewrite orb_true_iff. repeat rewrite String.eqb_eq. tauto.
Qed.

Lemma runtime_plainWrapper_flattens node :
  Generic.plainWrapper times node ->
  negb (Generic.isDefaultFill times node) || hasVisibleCorner node
  || hasOpacity node = false.
Proof.
  intros [Hfill Hcorner Hop].
  assert (Generic.isDefaultFill times node = true) as ->.
  { unfold Generic.isDefaultFill.
    destruct (Generic.getSolidFill times node) as [fill|]; [|reflexivity].
    destruct (Hfill fill eq_refl) as [-> | [-> | [-> | ->]]]; reflexivity. }
  assert (hasVisibleCorner node = false) as ->.
  { unfold hasVisibleCorner. destruct (cornerRadius node) as [cr|]; [|reflexivity].
    specialize (Hcorner cr eq_refl).
    destruct (Js.gtb cr 0) eqn:Hgt; [|now rewrite andb_false_r].
    destruct (Js.ltb cr 100) eqn:Hlt; [|now rewrite andb_false_r].
    exfalso. apply Hcorner. split; now apply ltb_lt. }
  assert (hasOpacity node = false) as ->.
  { unfold hasOpacity. destruct (opacity node) as [o|]; [|reflexivity].
    specialize (Hop o eq_refl).
    destruct (Js.ltb o 1) eqn:Hlt; [|reflexivity].
    exfalso. now apply Hop, ltb_lt. }
  reflexivity.
Qed.

Lemma runtime_styled_test node :
  Generic.styled times node ->
  negb (Generic.isDefaultFill times node) || hasVisibleCorner node
  || hasOpacity node = true.
Proof.
  intros [(fill & Hf & H1 & H2 & H3 & H4)|[(cr & Hc & H0 & H100)|(o & Ho & H1)]].
  - unfold Generic.isDefaultFill. rewrite Hf, (runtime_getSolidFill_truthy _ Hf).
    unfold isBlackOrWhite.
    apply String.eqb_neq in H1, H2, H3, H4. now rewrite H1, H2, H3, H4.
  - unfold hasVisibleCorner. rewrite Hc.
    assert (Js.truthyNum cr = true) as ->.
    { unfold Js.truthyNum. apply negb_true_iff.
      destruct (Qeq_bool cr 0) eqn:E; [|reflexivity].
      apply Qeq_bool_eq in E. rewrite E in H0. discriminate H0. }
    assert (Js.gtb cr 0 = true) as -> by now apply ltb_lt.
    assert (Js.ltb cr 100 = true) as -> by now apply ltb_lt.
    now rewrite orb_true_r.
  - unfold hasOpacity. rewrite Ho.
    assert (Js.ltb o 1 = true) as -> by now apply ltb_lt.
    now rewrite orb_true_r.
Qed.

(** Every node of the output is built from a raw node of the input, along
    one of the three construction paths. *)
Lemma runtime_parse_built root :
  forall depth isRoot out,
    Generic.parse toLowerCase trim times over root depth isRoot = Some out ->
    Slim.everywhere
      (fun s =>
         exists p raw k,
           descendantAt k raw root
           /\ Generic.builtFrom trim times over p raw s)
      out.
Proof.
  induction root as [root IH] using Figma.FigmaNode_ind.
  intros depth isRoot out. rewrite runtime_parse_unfold.
  destruct (20 <? depth)%nat; [discriminate|].
  destruct (Generic.isDecorative toLowerCase trim root); [discriminate|].
  destruct (Generic.isEmptyLeaf trim root); [discriminate|].
  assert (Hself : forall p s,
             Generic.constructs trim times over p root s ->
             exists p' raw k,
               descendantAt k raw root
               /\ Generic.builtFrom trim times over p' raw s).
  { intros p s Hp. exists p, root, 0%nat. split; [constructor|].
    exists s, (Slim.name s). split; [assumption|].
    symmetry. apply withName_same. }
  destruct ((type root =? "TEXT") && Js.truthyOptStr (characters root))
    eqn:Htext.
  - apply andb_prop in Htext as [Hty _]. apply String.eqb_eq in Hty.
    destruct (characters root) as [chars|] eqn:Hch; [|discriminate].
    intros Hleaf. apply everywhere_leaf.
    + apply (Hself TextLeaf). simpl. eauto.
    + eapply runtime_textLeaf_children; eauto.
  - unfold Generic.survivors. set (cs := Js.collect _ _).
    assert (Hcs : Forall
                    (Slim.everywhere
                       (fun s =>
                          exists p raw k,
                            descendantAt k raw root
                            /\ Generic.builtFrom trim times over p raw s))
                    cs).
    { apply Forall_forall. intros y Hy.
      apply collect_In in Hy as (c & Hc & Hy).
      rewrite Forall_forall in IH.
      eapply everywhere_impl; [|eapply IH; eauto].
      intros s (p & raw & k & Hk & Hb). exists p, raw, (S k).
      split; [econstructor; eauto|assumption]. }
    clearbody cs. unfold Generic.afterChildren.
    destruct ((length cs =? 0)%nat && negb (type root =? "TEXT")).
    + destruct (hasImageFill root) eqn:Himg; [|discriminate].
      intros [= <-]. apply everywhere_leaf; [|reflexivity].
      apply (Hself ImageFallback). simpl. auto.
    + assert (Hdefault :
                Slim.everywhere
                  (fun s =>
                     exists p raw k,
                       descendantAt k raw root
                       /\ Generic.builtFrom trim times over p raw s)
                  (Generic.buildSlim times over root isRoot cs)).
      { constructor.
        - apply (Hself DefaultConstruction). simpl. eauto.
        - intros l. simpl. destruct cs; [discriminate|]. now intros [= <-]. }
      destruct cs as [|child [|]]; try (intros [= <-]; exact Hdefault).
      destruct (negb isRoot && _); [|intros [= <-]; exact Hdefault].
      apply Forall_inv in Hcs.
      destruct (Generic.isGenericName toLowerCase (name root));
        intros [= <-]; [assumption|].
      apply everywhere_withName; [|assumption].
      apply everywhere_here in Hcs as (p & raw & k & Hk & s0 & nm & Hc & ->).
      exists p, raw, k. split; [assumption|].
      exists s0, (name root). split; [assumption|reflexivity].
Qed.

(** ** C2: opacity *)



(** ** C4: single-child flattening *)

(** C4 (amended): take a non-root node that is not decorative and not a
    text node with characters, with exactly one surviving compressed child,
    no non-default solid fill, no corner radius strictly between 0 and 100
    and no opacity below 1.  If its lower-cased name starts with "frame",
    "accessories" or "_", or is exactly "container", "contents", "content",
    "text" or "image", [parse] returns the child unchanged; otherwise it
    returns the child with its name replaced by the wrapper's name and
    every other attribute untouched. *)
Theorem single_child_flattening node depth child :
  Generic.isDecorative toLowerCase trim node = false ->
  ~ textWithCharacters node ->
  Generic.survivors toLowerCase trim times over node depth = [child] ->
  Generic.plainWrapper times node ->
  (genericName (toLowerCase (name node)) ->
   Generic.parse toLowerCase trim times over node depth false = Some child)
  /\ (~ genericName (toLowerCase (name node)) ->
      Generic.parse toLowerCase trim times over node depth false
      = Some (Slim.withName (name node) child)).
Proof.
  intros Hdec Htext Hsurv Hplain.
  assert (Hparse :
            Generic.parse toLowerCase trim times over node depth false =
            if Generic.isGenericName toLowerCase (name node) then Some child
            else Some (Slim.withName (name node) child)).
  { rewrite runtime_parse_container; try assumption;
      [|rewrite Hsurv; discriminate].
    rewrite Hsurv. unfold Generic.afterChildren. simpl.
    rewrite (runtime_plainWrapper_flattens Hplain). reflexivity. }
  rewrite Hparse. split; intros Hg.
  - apply runtime_isGenericName in Hg. now rewrite Hg.
  - destruct (Generic.isGenericName toLowerCase (name node)) eqn:E;
      [|reflexivity].
    exfalso. now apply Hg, runtime_isGenericName.
Qed.

(** ** C9: text nodes without characters *)

(** C9 (amended): a TEXT node within the depth cap that is not decorative,
    whose characters are absent or the empty string and which has no
    children, is not pruned: [parse] returns the node of the default
    construction, of category Text, with the raw name and no content field.
    A TEXT node whose characters are not empty but trim to nothing is
    pruned.  ([trim] leaves the empty string empty.) *)
Theorem empty_text_kept node depth isRoot :
  trim "" = "" ->
  type node = "TEXT" ->
  (((depth <= 20)%nat ->
    Generic.isDecorative toLowerCase trim node = false ->
    characters node = None \/ characters node = Some "" ->
    children node = None \/ children node = Some [] ->
    exists s,
      Generic.parse toLowerCase trim times over node depth isRoot = Some s
      /\ s = Generic.buildSlim times over node isRoot []
      /\ Slim.type s = "Text"
      /\ Slim.name s = name node
      /\ Slim.content s = None)
   /\ (forall chars,
         characters node = Some chars -> chars <> "" -> trim chars = "" ->
         Generic.parse toLowerCase trim times over node depth isRoot = None)).
Proof.
  intros Htrim Hty. split.
  - intros Hdepth Hdec Hchars Hkids.
    exists (Generic.buildSlim times over node isRoot []).
    assert (Hclass : classifyType node = "Text").
    { unfold classifyType. now rewrite Hty. }
    split; [|unfold Generic.buildSlim; rewrite Hclass; repeat split].
    rewrite runtime_parse_unfold.
    destruct (Nat.ltb_spec 20 depth) as [|_]; [lia|].
    rewrite Hdec.
    assert (Hno : hasChildren node = false).
    { unfold hasChildren. now destruct Hkids as [-> | ->]. }
    assert (Hlist : Figma.childList node = []).
    { unfold Figma.childList. now destruct Hkids as [-> | ->]. }
    unfold Generic.isEmptyLeaf, Generic.survivors.
    rewrite Hno, Hlist, Hty.
    destruct Hchars as [-> | ->]; simpl; rewrite ?Htrim; simpl;
      unfold Generic.afterChildren; rewrite Hty; reflexivity.
  - intros chars Hch Hne Hblank. rewrite runtime_parse_unfold.
    destruct (20 <? depth)%nat; [reflexivity|].
    destruct (Generic.isDecorative toLowerCase trim node); [reflexivity|].
    destruct (Generic.isEmptyLeaf trim node); [reflexivity|].
    rewrite Hty, Hch. simpl.
    apply String.eqb_neq in Hne. unfold Js.truthyStr at 1. rewrite Hne. simpl.
    unfold Generic.textLeaf. rewrite Hblank. reflexivity.
Qed.

(** ** Text leaves and icons *)

(** A text node that passes the guards and whose trimmed characters are
    not empty goes down the text-leaf path. *)
Lemma runtime_parse_text_leaf node depth isRoot chars :
  trim "" = "" ->
  (depth <= 20)%nat ->
  Generic.isDecorative toLowerCase trim node = false ->
  type node = "TEXT" ->
  characters node = Some chars ->
  trim chars <> "" ->
  Generic.parse toLowerCase trim times over node depth isRoot
  = Generic.textLeaf trim times node chars.
Proof.
  intros Hempty Hdepth Hdec Hty Hch Htrim. rewrite runtime_parse_unfold.
  destruct (Nat.ltb_spec 20 depth) as [|_]; [lia|].
  rewrite Hdec. unfold Generic.isEmptyLeaf. rewrite Hty, Hch. simpl.
  apply String.eqb_neq in Htrim. unfold Js.truthyStr. rewrite Htrim. simpl.
  destruct (chars =? "") eqn:E; [|reflexivity].
  apply String.eqb_eq in E. subst. rewrite Hempty in Htrim. discriminate Htrim.
Qed.

(** X12: a text node whose trimmed characters are a glyph of the SF Symbol
    table becomes an Icon node with the mapped symbol name and the raw
    name, and nothing else; it never becomes a Text node.  ([trim] leaves
    the empty string empty.) *)
Theorem symbol_text_is_icon node depth isRoot chars symbol :
  trim "" = "" ->
  (depth <= 20)%nat ->
  Generic.isDecorative toLowerCase trim node = false ->
  type node = "TEXT" ->
  characters node = Some chars ->
  Js.ownProperty SF_SYMBOLS (trim chars) = Some symbol ->
  Generic.parse toLowerCase trim times over node depth isRoot
  = Some (Slim.mkSlim (name node) "Icon" None
            (Some (Slim.SymbolName symbol))
            None None None None None None None None).
Proof.
  intros Hempty Hdepth Hdec Hty Hch Hsym.
  assert (Htrim : trim chars <> "").
  { intros E. rewrite E in Hsym. discriminate Hsym. }
  rewrite (@runtime_parse_text_leaf node depth isRoot chars
             Hempty Hdepth Hdec Hty Hch Htrim).
  unfold Generic.textLeaf, sfSymbol. unfold Js.truthyStr at 1.
  apply String.eqb_neq in Htrim. rewrite Htrim, Hsym.
  now rewrite (SF_SYMBOLS_truthy _ Hsym).
Qed.

(** X13: the table is read with [SF_SYMBOLS[trimmed]], which also finds
    the members every object inherits: a text whose trimmed characters are
    "constructor", "toString", "valueOf" and the like becomes an Icon node
    whose icon is that member, and its words are not in the output.
    ([trim] leaves the empty string empty.) *)
Theorem inherited_member_text_is_icon node depth isRoot chars :
  trim "" = "" ->
  (depth <= 20)%nat ->
  Generic.isDecorative toLowerCase trim node = false ->
  type node = "TEXT" ->
  characters node = Some chars ->
  Js.inherited (trim chars) = true ->
  Generic.parse toLowerCase trim times over node depth isRoot
  = Some (Slim.mkSlim (name node) "Icon" None
            (Some (Slim.PrototypeMember (trim chars)))
            None None None None None None None None).
Proof.
  intros Hempty Hdepth Hdec Hty Hch Hin.
  assert (Htrim : trim chars <> "").
  { intros E. rewrite E in Hin. discriminate Hin. }
  rewrite (@runtime_parse_text_leaf node depth isRoot chars
             Hempty Hdepth Hdec Hty Hch Htrim).
  unfold Generic.textLeaf, sfSymbol. unfold Js.truthyStr at 1.
  apply String.eqb_neq in Htrim.
  now rewrite Htrim, (inherited_not_own _ Hin), Hin.
Qed.

(** ** The envelope *)

Lemma runtime_children_nonempty root depth isRoot out :
  Generic.parse toLowerCase trim times over root depth isRoot = Some out ->
  Slim.children out <> Some [].
Proof.
  intros H. apply runtime_parse_built, everywhere_here in H.
  destruct H as (p & raw & k & _ & s0 & nm & Hc & ->).
  rewrite withName_children. destruct p; simpl in Hc.
  - destruct Hc as (_ & chars & _ & Hleaf).
    apply runtime_textLeaf_children in Hleaf. congruence.
  - destruct Hc as (_ & ->). discriminate.
  - destruct Hc as (r & cs & ->). simpl. destruct cs; discriminate.
Qed.

Lemma runtime_getSwiftTree_served
      fetch encode fileKey nodeId token doc sty console :
  serves fetch encode fileKey nodeId token doc sty ->
  Generic.getSwiftTree toLowerCase trim times over fetch encode
                       fileKey nodeId token console
  = (Async.Returned
       (Slim.mkTree
          (name doc)
          (match absoluteBoundingBox doc with
           | Some bb => Js.round (width bb) | None => 0%Z end)
          (match absoluteBoundingBox doc with
           | Some bb => Js.round (height bb) | None => 0%Z end)
          (match Generic.parse toLowerCase trim times over doc 0 true with
           | Some p => match Slim.children p with
                       | Some cs => cs | None => [p] end
           | None => []
           end)
          (extractTokens (match sty with Some s => s | None => [] end))),
     console).
Proof.
  intros (response & nodes & Hfetch & Hok & Hjson & Hnode).
  unfold Generic.getSwiftTree, fetchFigmaNode, Async.bind, Async.await,
    Async.ret.
  fold (nodesUrl encode fileKey nodeId).
  rewrite Hfetch, Hok. simpl. rewrite Hjson, Hnode. reflexivity.
Qed.

(** X17: when the nodes endpoint serves the document, [getSwiftTree]
    returns an envelope named after the raw root, whatever becomes of the
    root.  Its component list is empty exactly when the root compresses to
    nothing; and when the root passes the guards and has a surviving child,
    the components are exactly the root's surviving compressed children:
    the root itself is never flattened and never listed. *)
Theorem envelope_components
        fetch encode fileKey nodeId token doc sty console :
  serves fetch encode fileKey nodeId token doc sty ->
  exists tree,
    Generic.getSwiftTree toLowerCase trim times over fetch encode
                         fileKey nodeId token console
    = (Async.Returned tree, console)
    /\ Slim.screen tree = name doc
    /\ (Slim.components tree = [] <->
        Generic.parse toLowerCase trim times over doc 0 true = None)
    /\ (Generic.isDecorative toLowerCase trim doc = false ->
        ~ textWithCharacters doc ->
        Generic.survivors toLowerCase trim times over doc 0 <> [] ->
        Slim.components tree
        = Generic.survivors toLowerCase trim times over doc 0).
Proof.
  intros Hserved. eexists.
  split; [apply runtime_getSwiftTree_served; exact Hserved|].
  simpl. split; [reflexivity|]. split.
  - destruct (Generic.parse toLowerCase trim times over doc 0 true)
      as [p|] eqn:E; [|tauto].
    split; [|discriminate]. apply runtime_children_nonempty in E.
    destruct (Slim.children p) as [[|]|]; congruence.
  - intros Hdec Htext Hsurv.
    rewrite runtime_parse_container; try assumption.
    unfold Generic.afterChildren.
    destruct (Generic.survivors toLowerCase trim times over doc 0)
      as [|c [|c' l]]; [now exfalso| |]; reflexivity.
Qed.

(** ** Containers that are kept *)

(** X23: a node that passes the guards and has a surviving child is kept
    as a container around all its surviving children, built by the default
    construction, whenever it is the root, or has two surviving children
    or more, or is styled; only an unstyled non-root node around a single
    survivor is flattened away. *)
Theorem container_kept node depth isRoot :
  Generic.isDecorative toLowerCase trim node = false ->
  ~ textWithCharacters node ->
  Generic.survivors toLowerCase trim times over node depth <> [] ->
  isRoot = true
  \/ (2 <= length (Generic.survivors toLowerCase trim times over node depth))%nat
  \/ Generic.styled times node ->
  Generic.parse toLowerCase trim times over node depth isRoot
  = Some (Generic.buildSlim times over node isRoot
            (Generic.survivors toLowerCase trim times over node depth)).
Proof.
  intros Hdec Htext Hsurv Hkeep.
  rewrite runtime_parse_container; try assumption.
  unfold Generic.afterChildren.
  destruct (Generic.survivors toLowerCase trim times over node depth)
    as [|c [|c' l]].
  - exfalso. now apply Hsurv.
  - simpl. destruct Hkeep as [-> | [Hlen | Hstyled]].
    + reflexivity.
    + simpl in Hlen. lia.
    + rewrite (runtime_styled_test Hstyled). now rewrite andb_false_r.
  - reflexivity.
Qed.

End RuntimeFacts.

(** The first embedding is the one over the runtime at the ASCII string
    operations and the exact arithmetic. *)
Lemma reference_parse node :
  forall depth isRoot,
    Generic.parse Js.toLowerCase Js.trim Qmult Qdiv node depth isRoot
    = parse node depth isRoot.
Proof.
  induction node as [node IH] using Figma.FigmaNode_ind.
  intros depth isRoot. rewrite runtime_parse_unfold, parse_unfold.
  assert (Hcs : Generic.survivors Js.toLowerCase Js.trim Qmult Qdiv node depth
                = Js.collect (fun child => parse child (S depth) false)
                             (Figma.childList node)).
  { unfold Generic.survivors.
    induction IH as [|c l Hc _ IHl]; simpl; [reflexivity|].
    now rewrite Hc, IHl. }
  rewrite Hcs. reflexivity.
Qed.

(** ** Double arithmetic at known values *)

(** The doubles of 0.1 and of 1/3, the product [0.1 * 3] that is
    0.30000000000000004, ties going to the even significand above [2 ^ 53]
    and at the steps of [2 ^ -1074] near zero, and the three values used
    below: [0.6749999999999999 * 100] is 67.5, [68 / 100] is the double of
    0.68 and [0.00196078431372549 * 255] is 0.5. *)
Example ieee_known_values :
  Ieee.fl (1 # 10) == 3602879701896397 # 36028797018963968
  /\ Ieee.fl (1 # 3) == 6004799503160661 # 18014398509481984
  /\ Ieee.times (Ieee.fl (1 # 10)) 3 == 1351079888211149 # 4503599627370496
  /\ Ieee.fl (inject_Z (2 ^ 53 + 1)) == inject_Z (2 ^ 53)
  /\ Ieee.fl (inject_Z (2 ^ 53 + 3)) == inject_Z (2 ^ 53 + 4)
  /\ Ieee.fl (1 # 2 ^ 1075) == 0
  /\ Ieee.fl (3 # 2 ^ 1075) == 1 # 2 ^ 1073
  /\ Ieee.times justBelow0675 100 == 135 # 2
  /\ Ieee.over 68 100 == 6124895493223875 # 9007199254740992
  /\ Ieee.times halfOver255 255 == 1 # 2.
Proof. repeat split; vm_compute; reflexivity. Qed.

(** ** At the runtime of ASCII strings and double arithmetic

    The inputs below have ASCII names and characters, on which
    [Js.toLowerCase] and [Js.trim] are the operations of JavaScript; the
    arithmetic is that of [Ieee]. *)



(** C4 (as stated, refuted).  The code takes every name that starts with
    "frame" for generic: the wrapper "Frame 12" returns its child under the
    child's own name, where the claim's exact "frame" has it renamed.  Read
    with prefixes instead, the claim fails at "Container View", whose name
    the child adopts.  A wrapper that is hidden returns nothing, and a text
    node with characters returns its own text leaf, whatever its child. *)
Lemma flattening_claim_fails :
  ~ Generic.claimedFlattening Js.toLowerCase Js.trim Ieee.times Ieee.over
      claimedGenericExact numberedFrame 1
  /\ ~ Generic.claimedFlattening Js.toLowerCase Js.trim Ieee.times Ieee.over
         claimedGenericPrefix containerView 1
  /\ ~ Generic.claimedFlattening Js.toLowerCase Js.trim Ieee.times Ieee.over
         claimedGenericExact hiddenWrapper 1
  /\ ~ Generic.claimedFlattening Js.toLowerCase Js.trim Ieee.times Ieee.over
         claimedGenericExact textWithChild 1.
Proof.
  assert (Hplain : forall n, Generic.getSolidFill Ieee.times n = None ->
                             cornerRadius n = None -> opacity n = None ->
                             Generic.plainWrapper Ieee.times n).
  { intros n Hf Hc Ho. split; intros ?; rewrite ?Hf, ?Hc, ?Ho; discriminate. }
  split; [|split; [|split]]; intros H.
  - destruct (H _ eq_refl (Hplain numberedFrame eq_refl eq_refl eq_refl))
      as [_ Hren].
    assert (Hno : ~ claimedGenericExact (Js.toLowerCase (name numberedFrame))).
    { unfold claimedGenericExact. simpl.
      intros [E|[E|[E|[E|[E|[E|[E|E]]]]]]]; discriminate E. }
    specialize (Hren Hno). vm_compute in Hren. discriminate Hren.
  - destruct (H _ eq_refl (Hplain containerView eq_refl eq_refl eq_refl))
      as [Hgen _].
    assert (Hyes : claimedGenericPrefix (Js.toLowerCase (name containerView))).
    { right. left. reflexivity. }
    specialize (Hgen Hyes). vm_compute in Hgen. discriminate Hgen.
  - destruct (H _ eq_refl (Hplain hiddenWrapper eq_refl eq_refl eq_refl))
      as [_ Hren].
    assert (Hno : ~ claimedGenericExact (Js.toLowerCase (name hiddenWrapper))).
    { unfold claimedGenericExact. simpl.
      intros [E|[E|[E|[E|[E|[E|[E|E]]]]]]]; discriminate E. }
    specialize (Hren Hno). vm_compute in Hren. discriminate Hren.
  - destruct (H _ eq_refl (Hplain textWithChild eq_refl eq_refl eq_refl))
      as [_ Hren].
    assert (Hno : ~ claimedGenericExact (Js.toLowerCase (name textWithChild))).
    { unfold claimedGenericExact. simpl.
      intros [E|[E|[E|[E|[E|[E|[E|E]]]]]]]; discriminate E. }
    specialize (Hren Hno). vm_compute in Hren. discriminate Hren.
Qed.

Lemma runtime_plainWrapper_unstyled times node :
  Generic.getSolidFill times node = None -> cornerRadius node = None ->
  opacity node = None -> Generic.plainWrapper times node.
Proof.
  intros Hf Hc Ho. split; intros ?; rewrite ?Hf, ?Hc, ?Ho; discriminate.
Qed.

Lemma single_child_flattening_witness :
  Generic.parse Js.toLowerCase Js.trim Ieee.times Ieee.over numberedFrame 1 false
  = Some labelSlim
  /\ Generic.parse Js.toLowerCase Js.trim Ieee.times Ieee.over
                   primaryAction 1 false
     = Some (Slim.withName "Primary Action" labelSlim).
Proof.
  split.
  - refine (proj1 (@single_child_flattening
                     Js.toLowerCase Js.trim Ieee.times Ieee.over
                     numberedFrame 1 labelSlim _ _ _ _) _).
    + reflexivity.
    + intros [E _]. discriminate E.
    + reflexivity.
    + apply runtime_plainWrapper_unstyled; reflexivity.
    + left. reflexivity.
  - refine (proj2 (@single_child_flattening
                     Js.toLowerCase Js.trim Ieee.times Ieee.over
                     primaryAction 1 labelSlim _ _ _ _) _).
    + reflexivity.
    + intros [E _]. discriminate E.
    + reflexivity.
    + apply runtime_plainWrapper_unstyled; reflexivity.
    + unfold genericName. simpl.
      intros [E|[E|[E|[E|[E|[E|[E|E]]]]]]]; discriminate E.
Defined.

(** C9 (as stated, refuted): a text node without characters and without
    children is dropped all the same when it is hidden, when its name is
    on the denylist, or when it lies beyond the depth cap. *)
Lemma empty_text_can_be_pruned :
  (type hiddenEmptyText = "TEXT" /\ characters hiddenEmptyText = Some ""
   /\ children hiddenEmptyText = None
   /\ Generic.parse Js.toLowerCase Js.trim Ieee.times Ieee.over
                    hiddenEmptyText 1 false = None)
  /\ (type emptyClock = "TEXT" /\ characters emptyClock = None
      /\ children emptyClock = None
      /\ Generic.parse Js.toLowerCase Js.trim Ieee.times Ieee.over
                       emptyClock 1 false = None)
  /\ (type emptyText = "TEXT" /\ characters emptyText = Some ""
      /\ children emptyText = None
      /\ Generic.parse Js.toLowerCase Js.trim Ieee.times Ieee.over
                       emptyText 21 false = None).
Proof. repeat split. Qed.

Lemma empty_text_kept_witness :
  (exists s,
     Generic.parse Js.toLowerCase Js.trim Ieee.times Ieee.over
                   emptyText 3 false = Some s
     /\ s = Generic.buildSlim Ieee.times Ieee.over emptyText false []
     /\ Slim.type s = "Text"
     /\ Slim.name s = "Label"
     /\ Slim.content s = None)
  /\ Generic.parse Js.toLowerCase Js.trim Ieee.times Ieee.over
                   (textNode "Label" "   ") 3 false = None.
Proof.
  split.
  - apply (proj1 (@empty_text_kept Js.toLowerCase Js.trim Ieee.times Ieee.over
                                   emptyText 3 false eq_refl eq_refl)).
    + lia.
    + reflexivity.
    + right. reflexivity.
    + left. reflexivity.
  - apply (proj2 (@empty_text_kept Js.toLowerCase Js.trim Ieee.times Ieee.over
                                   (textNode "Label" "   ") 3 false
                                   eq_refl eq_refl)
             "   ").
    + reflexivity.
    + discriminate.
    + reflexivity.
Defined.

Lemma symbol_text_is_icon_witness :
  Generic.parse Js.toLowerCase Js.trim Ieee.times Ieee.over
                (textNode "Back" " 􀆉 ") 4 false
  = Some (Slim.mkSlim "Back" "Icon" None
            (Some (Slim.SymbolName "chevron.left"))
            None None None None None None None None).
Proof.
  apply (@symbol_text_is_icon Js.toLowerCase Js.trim Ieee.times Ieee.over
                              (textNode "Back" " 􀆉 ") 4 false
                              " 􀆉 " "chevron.left").
  - reflexivity.
  - lia.
  - reflexivity.
  - reflexivity.
  - reflexivity.
  - reflexivity.
Defined.

Lemma inherited_member_text_is_icon_witness :
  Generic.parse Js.toLowerCase Js.trim Ieee.times Ieee.over
                (textNode "Label" "constructor") 4 false
  = Some (Slim.mkSlim "Label" "Icon" None
            (Some (Slim.PrototypeMember "constructor"))
            None None None None None None None None).
Proof.
  apply (@inherited_member_text_is_icon
           Js.toLowerCase Js.trim Ieee.times Ieee.over
           (textNode "Label" "constructor") 4 false "constructor").
  - reflexivity.
  - lia.
  - reflexivity.
  - reflexivity.
  - reflexivity.
  - reflexivity.
Defined.

Lemma envelope_components_witness :
  exists tree,
    Generic.getSwiftTree Js.toLowerCase Js.trim Ieee.times Ieee.over
                         (serving scenarioRoot) (fun s => s)
                         "abc123" "1:1" "secret" []
    = (Async.Returned tree, [])
    /\ Slim.screen tree = "Screen"
    /\ Slim.components tree
       = Generic.survivors Js.toLowerCase Js.trim Ieee.times Ieee.over
                           scenarioRoot 0.
Proof.
  destruct (@envelope_components
              Js.toLowerCase Js.trim Ieee.times Ieee.over
              (serving scenarioRoot) (fun s => s)
              "abc123" "1:1" "secret" scenarioRoot None [])
    as (tree & Hrun & Hscreen & _ & Hcomp).
  - eexists. eexists. repeat split; reflexivity.
  - exists tree. split; [exact Hrun|]. split; [exact Hscreen|].
    apply Hcomp.
    + reflexivity.
    + intros [Hty _]. discriminate Hty.
    + discriminate.
Defined.

(** A rounded button is kept; so is a wrapper whose grey fill the double
    arithmetic takes to "#010101", which exact arithmetic would take to
    black. *)
Lemma container_kept_witness :
  Generic.parse Js.toLowerCase Js.trim Ieee.times Ieee.over
                roundedButton 1 false
  = Some (Generic.buildSlim Ieee.times Ieee.over roundedButton false
            (Generic.survivors Js.toLowerCase Js.trim Ieee.times Ieee.over
                               roundedButton 1))
  /\ (Generic.parse Js.toLowerCase Js.trim Ieee.times Ieee.over
                    nearBlackWrapper 1 false
      = Some (Generic.buildSlim Ieee.times Ieee.over nearBlackWrapper false
                (Generic.survivors Js.toLowerCase Js.trim Ieee.times Ieee.over
                                   nearBlackWrapper 1))
      /\ Generic.getSolidFill Ieee.times nearBlackWrapper = Some "#010101"
      /\ getSolidFill nearBlackWrapper = Some "#000000").
Proof.
  split; [|split; [|split; reflexivity]].
  - apply (@container_kept Js.toLowerCase Js.trim Ieee.times Ieee.over
                           roundedButton 1 false).
    + reflexivity.
    + intros [Hty _]. discriminate Hty.
    + discriminate.
    + right. right. right. left. exists 12. repeat split.
  - apply (@container_kept Js.toLowerCase Js.trim Ieee.times Ieee.over
                           nearBlackWrapper 1 false).
    + reflexivity.
    + intros [Hty _]. discriminate Hty.
    + discriminate.
    + right. right. left. exists "#010101".
      split; [reflexivity|]. repeat split; discriminate.
Defined.
